(** * The onboarding planner of OmegaGO

    A shallow embedding of the manifest-driven planner: the JavaScript
    objects it uses as indexes, the part of the file system it reads and
    writes, its promise-based control flow as a state-and-exception monad,
    and the functions [readCsvSync], [envPathForProject], [fileExists],
    [loadEnvIfExists], [pick] and [main] themselves. *)

From Stdlib Require Import String Ascii List Bool Arith NArith Lia Permutation.
Import ListNotations.
Local Open Scope string_scope.
Local Open Scope list_scope.

(** ** JavaScript objects used as maps *)

Module JS.

(** [args.includes(x)] and [presentFiles.includes(f)] on arrays of strings. *)
Definition includes (l : list string) (x : string) : bool :=
  existsb (String.eqb x) l.

(** An array index is the canonical decimal spelling of an integer below
    2^32 - 1.  Own property keys of that shape are enumerated first, in
    ascending numeric order, by [Object.keys]. *)
Definition digit (c : ascii) : option N :=
  let n := N_of_ascii c in
  if ((48 <=? n) && (n <=? 57))%N then Some (n - 48)%N else None.

Fixpoint digits (s : string) (acc : N) : option N :=
  match s with
  | EmptyString => Some acc
  | String c s' =>
      match digit c with
      | Some d => digits s' (10 * acc + d)%N
      | None => None
      end
  end.

Definition array_index (s : string) : option N :=
  match s with
  | EmptyString => None
  | String c s' =>
      if Ascii.eqb c "0"%char then
        match s' with EmptyString => Some 0%N | _ => None end
      else
        match digits s 0%N with
        | Some n => if (n <? 2 ^ 32 - 1)%N then Some n else None
        | None => None
        end
  end.

Definition is_index (s : string) : bool :=
  match array_index s with Some _ => true | None => false end.

Fixpoint insert_index (e : N * string) (l : list (N * string)) : list (N * string) :=
  match l with
  | [] => [e]
  | x :: l' => if (fst e <=? fst x)%N then e :: l else x :: insert_index e l'
  end.

Definition sort_index (l : list (N * string)) : list (N * string) :=
  fold_right insert_index [] l.

Fixpoint index_keys (ks : list string) : list (N * string) :=
  match ks with
  | [] => []
  | k :: ks' =>
      match array_index k with
      | Some n => (n, k) :: index_keys ks'
      | None => index_keys ks'
      end
  end.

(** The names every ordinary object inherits from [Object.prototype]. *)
Definition prototype_names : list string :=
  [ "constructor"; "__defineGetter__"; "__defineSetter__"; "hasOwnProperty";
    "__lookupGetter__"; "__lookupSetter__"; "isPrototypeOf";
    "propertyIsEnumerable"; "toString"; "valueOf"; "__proto__";
    "toLocaleString" ].

(** What [o[k]] evaluates to on an ordinary object whose own properties hold
    values of type [V]: [undefined], an own property, or the built-in
    function (for [__proto__], the prototype object) inherited under that
    name. *)
Inductive value (V : Type) : Type :=
  | Undefined
  | Own (v : V)
  | Inherited (name : string).
Arguments Undefined {V}.
Arguments Own {V} v.
Arguments Inherited {V} name.

(** [!!v]: [undefined] is falsy, objects and functions are truthy. *)
Definition truthy {V} (v : value V) : bool :=
  match v with Undefined => false | _ => true end.

Section Objects.
Variable V : Type.

(** An object is the list of its own enumerable properties in creation
    order; each name occurs once. *)
Definition obj := list (string * V).

Fixpoint own_get (o : obj) (k : string) : option V :=
  match o with
  | [] => None
  | (k', v) :: o' => if String.eqb k' k then Some v else own_get o' k
  end.

(** [o[k] = v] / CreateDataProperty: an existing property keeps its place
    and takes the new value, a new one is added last. *)
Fixpoint set (o : obj) (k : string) (v : V) : obj :=
  match o with
  | [] => [(k, v)]
  | (k', v') :: o' =>
      if String.eqb k' k then (k', v) :: o' else (k', v') :: set o' k v
  end.

(** [Object.fromEntries(entries)]: one CreateDataProperty per entry, in
    order. *)
Definition step (o : obj) (e : string * V) : obj := set o (fst e) (snd e).

Definition fromEntries (entries : list (string * V)) : obj :=
  fold_left step entries [].

(** [Object.keys(o)]: array indices ascending, then the other names in
    creation order. *)
Definition keys (o : obj) : list string :=
  let ks := map fst o in
  map snd (sort_index (index_keys ks))
    ++ filter (fun k => negb (is_index k)) ks.

(** [o[k]] with the prototype chain of a plain object. *)
Definition get (o : obj) (k : string) : value V :=
  match own_get o k with
  | Some v => Own v
  | None => if includes prototype_names k then Inherited k else Undefined
  end.
End Objects.

Arguments own_get {V} o k.
Arguments set {V} o k v.
Arguments step {V} o e.
Arguments fromEntries {V} entries.
Arguments keys {V} o.
Arguments get {V} o k.

End JS.

(** ** Records of a CSV file and paths *)

(** A record produced by csv-parse with [columns: true]: an object from
    header name to cell text. *)
Definition Row := JS.obj string.

(** A path is the list of its segments below the root, already normalized. *)
Definition Path := list string.

Definition path_eq_dec : forall p q : Path, {p = q} + {p <> q} :=
  list_eq_dec string_dec.

Definition path_eqb (p q : Path) : bool :=
  if path_eq_dec p q then true else false.

(** Splitting an argument of [path.join] at the separator. *)
Fixpoint segments (s : string) : list string :=
  match s with
  | EmptyString => [EmptyString]
  | String c s' =>
      if Ascii.eqb c "/"%char then EmptyString :: segments s'
      else match segments s' with
           | seg :: rest => String c seg :: rest
           | [] => [String c EmptyString]
           end
  end.

(** [path.normalize] on an absolute path: empty and [.] segments vanish,
    [..] removes the segment before it (nothing at the root).  [stack] is
    the path so far, innermost segment first. *)
Fixpoint normalize (stack : list string) (segs : list string) : Path :=
  match segs with
  | [] => rev stack
  | s :: rest =>
      if String.eqb s "" || String.eqb s "." then normalize stack rest
      else if String.eqb s ".." then normalize (tl stack) rest
      else normalize (s :: stack) rest
  end.

(** [path.join(process.cwd(), ...parts)]. *)
Definition path_join (cwd : Path) (parts : list string) : Path :=
  normalize (rev cwd) (flat_map segments parts).

(** ** The file system *)

(** Entries are regular files and directories; permissions are not
    modelled, every regular file can be read.  A regular file is
    represented by what the two third-party parsers make of its text: [parse_csv] is the result of csv-parse's
    [parse(text, {columns: true, skip_empty_lines: true})] ([None] when it
    throws), [parse_env] the object [dotenv.parse(text)] returns. *)
Record Content : Type := {
  parse_csv : option (list Row);
  parse_env : JS.obj string
}.

Inductive Node : Type :=
  | File (c : Content)
  | Dir.

Definition FS := Path -> option Node.

Inductive Error : Type :=
  | ENOENT (p : Path)
  | EISDIR (p : Path)
  | EEXIST (p : Path)
  | ENOTDIR (p : Path)
  | CsvError
  | TypeError.

(** ** Output of the planner *)

(** The object [loadEnvIfExists] returns. *)
Record EnvInfo : Type := {
  envPath : Path;
  present : bool;
  vars : list string
}.

(** [details] of a check: the [envInfo] object, or the object built by
    [pick]. *)
Inductive Details : Type :=
  | OfEnv (e : EnvInfo)
  | Picked (fields : Row).

Record Check : Type := {
  kind : string;
  ok : bool;
  details : Details
}.

Record Plan : Type := {
  projectId : string;
  type : option string;
  checks : list Check;
  actions : list string
}.

Record Summary : Type := {
  missingFiles : list string;
  presentFiles : list string;
  totalProjects : nat;
  plans : list Plan
}.

(** What [console.log] received: the summary handed to [JSON.stringify], or
    a plain line. *)
Inductive Output : Type :=
  | Document (s : Summary)
  | Line (s : string).

(** ** Promises as a state-and-exception monad *)

Record State : Type := {
  fs : FS;
  stdout : list Output;
  stderr : list Error
}.

Inductive result (A : Type) : Type :=
  | Ok (a : A)
  | Throw (e : Error).
Arguments Ok {A} a.
Arguments Throw {A} e.

Definition M (A : Type) : Type := State -> result A * State.

Definition ret {A} (a : A) : M A := fun s => (Ok a, s).

Definition bind {A B} (m : M A) (f : A -> M B) : M B :=
  fun s => match m s with
           | (Ok a, s') => f a s'
           | (Throw e, s') => (Throw e, s')
           end.

Definition throw {A} (e : Error) : M A := fun s => (Throw e, s).

(** [try { ... } catch { ... }] and [promise.catch(handler)]. *)
Definition try_catch {A} (m : M A) (h : Error -> M A) : M A :=
  fun s => match m s with
           | (Ok a, s') => (Ok a, s')
           | (Throw e, s') => h e s'
           end.

Declare Scope monad_scope.
Delimit Scope monad_scope with monad.
Notation "x <- m ;; k" := (bind m (fun x => k))
  (at level 61, m at next level, right associativity) : monad_scope.
Notation "m ;;; k" := (bind m (fun _ => k))
  (at level 61, right associativity) : monad_scope.
Local Open Scope monad_scope.

(** [for (const x of xs) { ... }] collecting one value per iteration. *)
Fixpoint for_of {A B} (xs : list A) (body : A -> M B) : M (list B) :=
  match xs with
  | [] => ret []
  | x :: xs' => b <- body x ;; bs <- for_of xs' body ;; ret (b :: bs)
  end.

(** [for (const x of xs) if (await c(x)) acc.push(x)]. *)
Fixpoint for_push {A} (xs : list A) (c : A -> M bool) : M (list A) :=
  match xs with
  | [] => ret []
  | x :: xs' =>
      b <- c x ;; r <- for_push xs' c ;; ret (if b then x :: r else r)
  end.

(** *** File-system primitives of [fs.promises] *)

Definition access (p : Path) : M unit :=
  fun s => match fs s p with
           | Some _ => (Ok tt, s)
           | None => (Throw (ENOENT p), s)
           end.

Definition readFile (p : Path) : M Content :=
  fun s => match fs s p with
           | Some (File c) => (Ok c, s)
           | Some Dir => (Throw (EISDIR p), s)
           | None => (Throw (ENOENT p), s)
           end.

(** The non-empty prefixes of a path, shortest first. *)
Fixpoint prefixes (p : Path) : list Path :=
  match p with
  | [] => []
  | x :: p' => [x] :: map (cons x) (prefixes p')
  end.

Definition create_dir (q : Path) (s : State) : State :=
  {| fs := fun x => if path_eqb x q then Some Dir else fs s x;
     stdout := stdout s;
     stderr := stderr s |}.

(** [fs.mkdir(p, {recursive: true})] walks the ancestors of [p] from the
    root down to [p] itself: a directory already there is left alone, a
    missing one is created, and a regular file on the way makes the call
    fail ([EEXIST] at [p], [ENOTDIR] above it).  In a file system where the
    parent of every entry is a directory the failure comes before anything
    is created. *)
Fixpoint mkdir_walk (qs : list Path) (p : Path) : M unit :=
  match qs with
  | [] => ret tt
  | q :: qs' =>
      fun s =>
        match fs s q with
        | Some (File _) =>
            (Throw (if path_eqb q p then EEXIST p else ENOTDIR q), s)
        | Some Dir => mkdir_walk qs' p s
        | None => mkdir_walk qs' p (create_dir q s)
        end
  end.

Definition mkdir (p : Path) : M unit := mkdir_walk (prefixes p) p.

Definition console_log (o : Output) : M unit :=
  fun s => (Ok tt, {| fs := fs s; stdout := stdout s ++ [o]; stderr := stderr s |}).

Definition console_error (e : Error) : M unit :=
  fun s => (Ok tt, {| fs := fs s; stdout := stdout s; stderr := stderr s ++ [e] |}).

(** ** The planner *)

Section Planner.
(** [process.cwd()]. *)
Variable cwd : Path.

Definition readCsvSync (filePath : Path) : M (list Row) :=
  content <- readFile filePath ;;
  match parse_csv content with
  | Some records => ret records
  | None => throw CsvError
  end.

Definition envPathForProject (projectId : string) : Path :=
  path_join cwd ["secrets"; projectId; ".env"].

Definition fileExists (p : Path) : M bool :=
  try_catch (access p ;;; ret true) (fun _ => ret false).

Definition loadEnvIfExists (projectId : string) : M EnvInfo :=
  let envPath := envPathForProject projectId in
  exists_ <- fileExists envPath ;;
  if exists_ then
    envContent <- readFile envPath ;;
    let parsed := parse_env envContent in
    ret {| envPath := envPath; present := true; vars := JS.keys parsed |}
  else ret {| envPath := envPath; present := false; vars := [] |}.

(** [obj[k]] for the object a check picks from: a row, or a built-in
    inherited from [Object.prototype].  None of the built-ins carries one
    of the column names the planner reads. *)
Definition field (o : JS.value Row) (k : string) : option string :=
  match o with
  | JS.Own r => JS.own_get r k
  | _ => None
  end.

Definition pick (o : JS.value Row) (ks : list string) : Row :=
  fold_left
    (fun acc k => match field o k with
                  | Some v => JS.set acc k v
                  | None => acc
                  end)
    ks [].

(** [t || {}]. *)
Definition or_empty (t : JS.value Row) : JS.value Row :=
  if JS.truthy t then t else JS.Own [].

(** [rows.map(r => [r.project_id, r])]; an [undefined] identifier becomes
    the property name ["undefined"]. *)
Definition project_id (r : Row) : string :=
  match JS.own_get r "project_id" with
  | Some s => s
  | None => "undefined"
  end.

Definition index (rows : list Row) : JS.obj Row :=
  JS.fromEntries (map (fun r => (project_id r, r)) rows).

Definition requiredFiles : list string :=
  [ "PROJECTS_MANIFEST.csv"; "PLAYWRIGHT_TESTS.csv"; "WEBHOOKS.csv";
    "HTML_SITES.csv"; "APPS.csv" ].

Definition toEnsure : list string :=
  [ "secrets"; "content"; "assets"; "imports" ].

(** [type === 'x'] where [type] may be [undefined]. *)
Definition strict_eq (t : option string) (x : string) : bool :=
  match t with Some s => String.eqb s x | None => false end.

Definition push_check (p : Plan) (c : Check) : Plan :=
  {| projectId := projectId p; type := type p;
     checks := checks p ++ [c]; actions := actions p |}.

Definition push_action (p : Plan) (a : string) : Plan :=
  {| projectId := projectId p; type := type p;
     checks := checks p; actions := actions p ++ [a] |}.

(** The loop body after [await loadEnvIfExists(projectId)]: the checks and
    actions pushed onto the plan, in order. *)
Definition assemble (testsById hooksById sitesById appsById : JS.obj Row)
    (projectId : string) (meta : JS.value Row) (envInfo : EnvInfo) : Plan :=
  let type := field meta "type" in
  let plan := {| projectId := projectId; type := type;
                 checks := []; actions := [] |} in
  let plan := push_check plan
    {| kind := "env"; ok := present envInfo; details := OfEnv envInfo |} in
  let plan :=
    if strict_eq type "playwright_tests" then
      let t := JS.get testsById projectId in
      let plan := push_check plan
        {| kind := "tests_row"; ok := JS.truthy t;
           details := Picked (pick (or_empty t) ["url"; "browsers"; "devices"]) |} in
      let plan := push_action plan "scaffold Playwright config and tests" in
      push_action plan "wire CI to run on PR and nightly"
    else plan in
  let plan :=
    if strict_eq type "html_site" then
      let s := JS.get sitesById projectId in
      let plan := push_check plan
        {| kind := "html_row"; ok := JS.truthy s;
           details := Picked (pick (or_empty s) ["build_tool"; "i18n_locales"]) |} in
      let plan := push_action plan "scaffold HTML site with chosen build tool" in
      match field meta "deploy_target" with
      | Some target =>
          if String.eqb target "" then plan
          else push_action plan ("configure deploy: " ++ target)
      | None => plan
      end
    else plan in
  let plan :=
    if strict_eq type "webhook" then
      let h := JS.get hooksById projectId in
      let plan := push_check plan
        {| kind := "webhook_row"; ok := JS.truthy h;
           details := Picked (pick (or_empty h) ["provider"; "endpoint_url"]) |} in
      let plan := push_action plan "validate signing secret and subscribe events" in
      push_action plan "provision DLQ and retries"
    else plan in
  if JS.truthy (JS.get appsById projectId) then
    push_action plan "prepare app release pipeline"
  else plan.

(** The body of the planning loop for one identifier: [meta.type] throws a
    TypeError when [byId[projectId]] is [undefined]. *)
Definition planProject (byId testsById hooksById sitesById appsById : JS.obj Row)
    (projectId : string) : M Plan :=
  meta <- match JS.get byId projectId with
          | JS.Undefined => throw TypeError
          | v => ret v
          end ;;
  envInfo <- loadEnvIfExists projectId ;;
  ret (assemble testsById hooksById sitesById appsById projectId meta envInfo).

Definition isDryRun (args : list string) : bool :=
  JS.includes args "--dry-run" || negb (JS.includes args "--apply").

(** [await readCsvSync(path.join(process.cwd(), f)).catch(() => [])]. *)
Definition ingest (f : string) : M (list Row) :=
  try_catch (readCsvSync (path_join cwd [f])) (fun _ => ret []).

Definition main (args : list string) : M unit :=
  presentFiles <- for_push requiredFiles
                    (fun f => fileExists (path_join cwd [f])) ;;
  let missing :=
    filter (fun f => negb (JS.includes presentFiles f)) requiredFiles in
  manifest <- ingest "PROJECTS_MANIFEST.csv" ;;
  let byId := index manifest in
  tests <- ingest "PLAYWRIGHT_TESTS.csv" ;;
  let testsById := index tests in
  webhooks <- ingest "WEBHOOKS.csv" ;;
  let hooksById := index webhooks in
  htmlSites <- ingest "HTML_SITES.csv" ;;
  let sitesById := index htmlSites in
  apps <- ingest "APPS.csv" ;;
  let appsById := index apps in
  let projectIds := JS.keys byId in
  plans <- for_of projectIds
             (planProject byId testsById hooksById sitesById appsById) ;;
  let summary :=
    {| missingFiles := missing; presentFiles := presentFiles;
       totalProjects := length projectIds; plans := plans |} in
  if isDryRun args then console_log (Document summary)
  else
    for_of toEnsure (fun dir => mkdir (path_join cwd [dir])) ;;;
    for_of projectIds
      (fun projectId =>
         mkdir (path_join cwd ["secrets"; projectId]) ;;;
         mkdir (path_join cwd ["content"; projectId]) ;;;
         mkdir (path_join cwd ["assets"; projectId])) ;;;
    console_log
      (Line "Apply step ensured base directories. Next steps: repo cloning and scaffolding.").

(** [main().catch(err => { console.error(err); process.exit(1); })]: the
    exit status and the final state. *)
Definition run (args : list string) (s : State) : nat * State :=
  match main args s with
  | (Ok _, s') => (0, s')
  | (Throw e, s') => (1, snd (console_error e s'))
  end.
End Planner.

(** ** Auxiliary notions for the statements below *)

(** A path segment that [path.join] leaves as it is. *)
Definition plain (x : string) : Prop :=
  segments x = [x] /\ x <> "" /\ x <> "." /\ x <> "..".

(** What [fileExists], [readCsvSync(...).catch(() => [])] and
    [loadEnvIfExists] make of a file-system entry. *)
Definition exists_at (F : FS) (p : Path) : bool :=
  match F p with Some _ => true | None => false end.

Definition rows_at (F : FS) (p : Path) : list Row :=
  match F p with
  | Some (File c) => match parse_csv c with Some rows => rows | None => [] end
  | _ => []
  end.

Definition probe (F : FS) (p : Path) : result EnvInfo :=
  match F p with
  | None => Ok {| envPath := p; present := false; vars := [] |}
  | Some (File c) =>
      Ok {| envPath := p; present := true; vars := JS.keys (parse_env c) |}
  | Some Dir => Throw (EISDIR p)
  end.

Section Views.
Variable cwd : Path.

(** The part of [main] after the planning loop. *)
Definition finish (args : list string) (missing present : list string)
    (projectIds : list string) (plans : list Plan) : M unit :=
  let summary :=
    {| missingFiles := missing; presentFiles := present;
       totalProjects := length projectIds; plans := plans |} in
  if isDryRun args then console_log (Document summary)
  else
    for_of toEnsure (fun dir => mkdir (path_join cwd [dir])) ;;;
    for_of projectIds
      (fun projectId =>
         mkdir (path_join cwd ["secrets"; projectId]) ;;;
         mkdir (path_join cwd ["content"; projectId]) ;;;
         mkdir (path_join cwd ["assets"; projectId])) ;;;
    console_log
      (Line "Apply step ensured base directories. Next steps: repo cloning and scaffolding.").

Definition manifest_of (F : FS) (f : string) : JS.obj Row :=
  index (rows_at F (path_join cwd [f])).

Definition present_of (F : FS) : list string :=
  filter (fun f => exists_at F (path_join cwd [f])) requiredFiles.

Definition missing_of (F : FS) : list string :=
  filter (fun f => negb (JS.includes (present_of F) f)) requiredFiles.

Definition planning (F : FS) : M (list Plan) :=
  for_of (JS.keys (manifest_of F "PROJECTS_MANIFEST.csv"))
    (planProject cwd (manifest_of F "PROJECTS_MANIFEST.csv")
       (manifest_of F "PLAYWRIGHT_TESTS.csv") (manifest_of F "WEBHOOKS.csv")
       (manifest_of F "HTML_SITES.csv") (manifest_of F "APPS.csv")).

(** What an operator observes of a run started with empty output streams:
    exit status, standard output, standard error. *)
Definition observe (args : list string) (F : FS) : nat * list Output * list Error :=
  let r := run cwd args {| fs := F; stdout := []; stderr := [] |} in
  (fst r, stdout (snd r), stderr (snd r)).

Definition secondaryFiles : list string :=
  [ "PLAYWRIGHT_TESTS.csv"; "WEBHOOKS.csv"; "HTML_SITES.csv"; "APPS.csv" ].

(** Two snapshots that differ only in the values of the key=value lines of
    secrets files: elsewhere they coincide, and a secrets file has the same
    names in the same order on both sides. *)
Definition differ_in_secret_values (F1 F2 : FS) : Prop :=
  forall p,
    F1 p = F2 p \/
    exists id c1 c2,
      p = envPathForProject cwd id /\ F1 p = Some (File c1) /\
      F2 p = Some (File c2) /\
      map fst (parse_env c1) = map fst (parse_env c2).

(** The rows of a secondary CSV that are keyed by an identifier of the
    primary manifest. *)
Definition relevant (ids : list string) (rows : list Row) : list Row :=
  filter (fun r => JS.includes ids (project_id r)) rows.

(** Two snapshots whose secondary CSVs all parse and differ only in rows
    keyed by identifiers absent from the primary manifest. *)
Definition differ_in_foreign_rows (F1 F2 : FS) : Prop :=
  (forall p, (forall f, In f secondaryFiles -> p <> path_join cwd [f]) ->
             F1 p = F2 p) /\
  (forall f, In f secondaryFiles ->
     exists c1 c2 rows1 rows2,
       F1 (path_join cwd [f]) = Some (File c1) /\
       F2 (path_join cwd [f]) = Some (File c2) /\
       parse_csv c1 = Some rows1 /\ parse_csv c2 = Some rows2 /\
       relevant (JS.keys (manifest_of F1 "PROJECTS_MANIFEST.csv")) rows1
         = relevant (JS.keys (manifest_of F1 "PROJECTS_MANIFEST.csv")) rows2).
End Views.

(** The snapshot without the entry at [p]. *)
Definition remove_entry (F : FS) (p : Path) : FS :=
  fun x => if path_eqb x p then None else F x.

(** The property names [JSON.stringify] prints for the details of a check;
    the details are empty when there is none. *)
Definition property_names (d : Details) : list string :=
  match d with
  | OfEnv _ => ["envPath"; "present"; "vars"]
  | Picked fields => JS.keys fields
  end.

(** The plans of the documents printed to standard output. *)
Definition printed_plans (out : list Output) : list (list Plan) :=
  flat_map (fun o => match o with Document d => [plans d] | Line _ => [] end) out.

(** The directories apply mode ensures, in the order of the calls. *)
Definition ensured (cwd : Path) (ids : list string) : list Path :=
  flat_map (fun dir => [path_join cwd [dir]]) toEnsure ++
  flat_map (fun projectId =>
              [ path_join cwd ["secrets"; projectId];
                path_join cwd ["content"; projectId];
                path_join cwd ["assets"; projectId] ]) ids.

(** The status line of apply mode. *)
Definition apply_line : Output :=
  Line "Apply step ensured base directories. Next steps: repo cloning and scaffolding.".

(** A sequence of [mkdir] calls. *)
Fixpoint mkdir_all (ps : list Path) : M unit :=
  match ps with
  | [] => ret tt
  | p :: ps' => mkdir p ;;; mkdir_all ps'
  end.

(** [p] is a directory; the root always is. *)
Definition is_dir (F : FS) (p : Path) : Prop := p = [] \/ F p = Some Dir.

(** [F'] is [F] with some missing entries turned into directories. *)
Definition fs_extends (F F' : FS) : Prop :=
  forall x, F' x = F x \/ (F x = None /\ F' x = Some Dir).

(** A manifest that is absent or does not parse. *)
Definition unusable (F : FS) (p : Path) : Prop :=
  F p = None \/ exists c, F p = Some (File c) /\ parse_csv c = None.

(** ** Sample snapshots *)

Definition sample_cwd : Path := ["srv"; "onboarding"].

Definition csv_file (rows : list Row) : Node :=
  File {| parse_csv := Some rows; parse_env := [] |}.

Definition env_file (pairs : JS.obj string) : Node :=
  File {| parse_csv := None; parse_env := pairs |}.

Definition malformed_file : Node :=
  File {| parse_csv := None; parse_env := [] |}.

Definition snapshot (entries : list (Path * Node)) : FS :=
  fun p => option_map snd (find (fun e => path_eqb (fst e) p) entries).

Definition at_cwd (name : string) : Path := sample_cwd ++ [name].

Definition start (F : FS) : State := {| fs := F; stdout := []; stderr := [] |}.

Definition demo_manifest_row : Row :=
  [("project_id", "demo1"); ("type", "html_site"); ("deploy_target", "vercel")].

Definition demo_site_row : Row :=
  [("project_id", "demo1"); ("build_tool", "vite"); ("i18n_locales", "en")].

Definition demo_snapshot : FS :=
  snapshot [ (at_cwd "PROJECTS_MANIFEST.csv", csv_file [demo_manifest_row]);
             (at_cwd "HTML_SITES.csv", csv_file [demo_site_row]) ].

Definition broken_manifest_snapshot : FS :=
  snapshot [ (at_cwd "PROJECTS_MANIFEST.csv", malformed_file);
             (at_cwd "HTML_SITES.csv", csv_file [demo_site_row]) ].

(** The demo project with a secrets file, before and after its token is
    rotated. *)
Definition rotated_before : FS :=
  snapshot [ (at_cwd "PROJECTS_MANIFEST.csv", csv_file [demo_manifest_row]);
             (at_cwd "HTML_SITES.csv", csv_file [demo_site_row]);
             (sample_cwd ++ ["secrets"; "demo1"; ".env"],
              env_file [("VERCEL_TOKEN", "old-token"); ("SITE", "demo")]) ].

Definition rotated_after : FS :=
  snapshot [ (at_cwd "PROJECTS_MANIFEST.csv", csv_file [demo_manifest_row]);
             (at_cwd "HTML_SITES.csv", csv_file [demo_site_row]);
             (sample_cwd ++ ["secrets"; "demo1"; ".env"],
              env_file [("VERCEL_TOKEN", "new-token"); ("SITE", "demo")]) ].

(** The demo project with all four secondary CSVs; afterwards APPS.csv
    gains a row of a project the manifest does not list. *)
Definition foreign_before : FS :=
  snapshot [ (at_cwd "APPS.csv", csv_file []);
             (at_cwd "PROJECTS_MANIFEST.csv", csv_file [demo_manifest_row]);
             (at_cwd "PLAYWRIGHT_TESTS.csv", csv_file []);
             (at_cwd "WEBHOOKS.csv", csv_file []);
             (at_cwd "HTML_SITES.csv", csv_file [demo_site_row]) ].

Definition foreign_after : FS :=
  snapshot [ (at_cwd "APPS.csv",
              csv_file [[("project_id", "other"); ("store", "npm")]]);
             (at_cwd "PROJECTS_MANIFEST.csv", csv_file [demo_manifest_row]);
             (at_cwd "PLAYWRIGHT_TESTS.csv", csv_file []);
             (at_cwd "WEBHOOKS.csv", csv_file []);
             (at_cwd "HTML_SITES.csv", csv_file [demo_site_row]) ].

Definition duplicate_site_rows : list Row :=
  [ [("project_id", "demo1"); ("build_tool", "webpack"); ("i18n_locales", "en")];
    [("project_id", "demo2"); ("build_tool", "hugo"); ("i18n_locales", "fr")];
    [("project_id", "demo1"); ("build_tool", "vite"); ("i18n_locales", "en,de")] ].

(** A working directory in which [secrets] is a regular file. *)
Definition blocked_snapshot : FS :=
  snapshot [ (at_cwd "PROJECTS_MANIFEST.csv", csv_file [demo_manifest_row]);
             (at_cwd "secrets", env_file []) ].

(** A manifest whose identifiers are numbers, listed as 2 then 1. *)
Definition numeric_rows : list Row :=
  [ [("project_id", "2"); ("type", "html_site")];
    [("project_id", "1"); ("type", "webhook")] ].

Definition numeric_ids_snapshot : FS :=
  snapshot [ (at_cwd "PROJECTS_MANIFEST.csv", csv_file numeric_rows) ].

(** Only the primary manifest, with a project called [constructor]. *)
Definition constructor_snapshot : FS :=
  snapshot [ (at_cwd "PROJECTS_MANIFEST.csv",
              csv_file [[("project_id", "constructor");
                         ("type", "playwright_tests")]]) ].

(** Two projects, the second named after the secrets file of the first. *)
Definition nested_id_snapshot : FS :=
  snapshot [ (at_cwd "PROJECTS_MANIFEST.csv",
              csv_file [[("project_id", "a"); ("type", "webhook")];
                        [("project_id", "a/.env"); ("type", "webhook")]]) ].

(** The first occurrences of the elements of [l] that are not in [seen]. *)
Fixpoint distinct (seen l : list string) : list string :=
  match l with
  | [] => []
  | x :: l' =>
      if JS.includes seen x then distinct seen l'
      else x :: distinct (x :: seen) l'
  end.

(** ** Further notions: the reducer of [pick], readable secrets, avatars *)

(** The callback [pick] hands to [keys.reduce]. *)
Definition pick_step (o : JS.value Row) (acc : Row) (k : string) : Row :=
  match field o k with Some v => JS.set acc k v | None => acc end.

(** [obj[k] !== undefined]. *)
Definition defined (o : JS.value Row) (k : string) : bool :=
  match field o k with Some _ => true | None => false end.

(** No secrets path of an identifier of the primary manifest is a
    directory. *)
Definition secrets_readable (cwd : Path) (F : FS) : Prop :=
  forall id,
    In id (JS.keys (manifest_of cwd F "PROJECTS_MANIFEST.csv")) ->
    F (envPathForProject cwd id) <> Some Dir.


(** The avatar fallback of the dashboard ([App], agent cards):
    [agent.name.split(' ').map(n => n[0]).join('')].  Characters are the
    code units of the string. *)
Fixpoint split_space (s : string) : list string :=
  match s with
  | EmptyString => [EmptyString]
  | String c s' =>
      if Ascii.eqb c " "%char then EmptyString :: split_space s'
      else match split_space s' with
           | w :: ws => String c w :: ws
           | [] => [String c EmptyString]
           end
  end.

(** [n[0]], which is [undefined] on the empty string and then joins as the
    empty string. *)
Definition first_char (n : string) : string :=
  match n with
  | EmptyString => EmptyString
  | String c _ => String c EmptyString
  end.

Definition initials (name : string) : string :=
  String.concat "" (map first_char (split_space name)).

Fixpoint has_space (s : string) : bool :=
  match s with
  | EmptyString => false
  | String c s' => Ascii.eqb c " "%char || has_space s'
  end.

(** A working directory with one project of each kind, a repeated
    identifier, a secrets file and two of the secondary CSVs. *)
Definition portfolio_rows : list Row :=
  [ [("project_id", "e2e"); ("type", "playwright_tests")];
    [("project_id", "site"); ("type", "html_site"); ("deploy_target", "")];
    [("project_id", "hook"); ("type", "webhook")];
    [("project_id", "lib"); ("type", "library")];
    [("project_id", "e2e"); ("type", "playwright_tests"); ("priority", "P0")] ].

Definition portfolio_snapshot : FS :=
  snapshot
    [ (at_cwd "PROJECTS_MANIFEST.csv", csv_file portfolio_rows);
      (at_cwd "PLAYWRIGHT_TESTS.csv",
       csv_file [[("project_id", "e2e"); ("url", "https://e2e.test");
                  ("browsers", "chromium"); ("notes", "nightly")]]);
      (at_cwd "APPS.csv", csv_file [[("project_id", "lib"); ("store", "npm")]]);
      (sample_cwd ++ ["secrets"; "site"; ".env"],
       env_file [("VERCEL_TOKEN", "t0k3n")]) ].

(** The portfolio with a file the planner has no use for. *)
Definition portfolio_with_notes : FS :=
  fun p =>
    if path_eqb p (at_cwd "NOTES.md")
    then Some (env_file [("remember", "rotate the tokens")])
    else portfolio_snapshot p.

(** The state the first apply run leaves for identifiers [a] and [a/.env]:
    secrets/a/.env is a directory. *)
Definition after_nested_apply : State :=
  snd (run sample_cwd ["--apply"] (start nested_id_snapshot)).

(** * Properties *)

Local Open Scope monad_scope.

(** ** The model on small inputs *)

Example keys_put_indices_first :
  JS.keys [("b", 1); ("10", 2); ("9", 3); ("a", 4)] = ["9"; "10"; "b"; "a"].
Proof. reflexivity. Qed.

Example array_index_is_canonical :
  JS.array_index "0" = Some 0%N /\ JS.array_index "01" = None /\
  JS.array_index "4294967294" = Some 4294967294%N /\
  JS.array_index "4294967295" = None /\ JS.array_index "-1" = None.
Proof. repeat split. Qed.

Example fromEntries_keeps_first_place :
  JS.fromEntries [("a", 1); ("b", 2); ("a", 3)] = [("a", 3); ("b", 2)].
Proof. reflexivity. Qed.

Example get_falls_back_on_prototype :
  JS.get (JS.fromEntries [("a", 1)]) "toString" = JS.Inherited "toString" /\
  JS.get (JS.fromEntries [("a", 1)]) "b" = JS.Undefined.
Proof. split; reflexivity. Qed.

Example path_join_normalizes :
  path_join ["srv"; "onboarding"] ["secrets"; "../x/./y//"; ".env"]
    = ["srv"; "onboarding"; "x"; "y"; ".env"].
Proof. reflexivity. Qed.

Example mkdir_creates_ancestors :
  let s := snd (mkdir ["srv"; "onboarding"; "content"; "demo1"]
                  {| fs := fun _ => None; stdout := []; stderr := [] |}) in
  fs s ["srv"] = Some Dir /\ fs s ["srv"; "onboarding"; "content"] = Some Dir /\
  fs s ["srv"; "onboarding"; "content"; "demo1"] = Some Dir /\
  fs s ["srv"; "other"] = None.
Proof. repeat split. Qed.

(** ** Objects: lookup after assignment, last write wins *)

Module JSFacts.
Import JS.

Section ObjectFacts.
Context {V : Type}.
Implicit Types (o : obj V) (k : string) (v : V).

Lemma own_get_set_same o k v : own_get (set o k v) k = Some v.
Proof.
  induction o as [|[k' v'] o IH]; simpl.
  - now rewrite String.eqb_refl.
  - destruct (String.eqb k' k) eqn:E; simpl; rewrite E; auto.
Qed.

Lemma own_get_set_other o k k' v :
  k <> k' -> own_get (set o k v) k' = own_get o k'.
Proof.
  intros Hne. induction o as [|[k0 v0] o IH]; simpl.
  - destruct (String.eqb_spec k k'); congruence.
  - destruct (String.eqb_spec k0 k) as [->|Hk]; simpl.
    + destruct (String.eqb_spec k k'); congruence.
    + now rewrite IH.
Qed.

Lemma keys_set o k v :
  map fst (set o k v) =
  if includes (map fst o) k then map fst o else map fst o ++ [k].
Proof.
  unfold includes. induction o as [|[k0 v0] o IH]; simpl; auto.
  rewrite (String.eqb_sym k k0).
  destruct (String.eqb_spec k0 k) as [->|Hk]; simpl; auto.
  rewrite IH. now destruct (existsb (String.eqb k) (map fst o)).
Qed.

Lemma includes_In (l : list string) k : includes l k = true <-> In k l.
Proof.
  unfold includes. rewrite existsb_exists. split.
  - intros (x & Hx & E). apply String.eqb_eq in E. now subst.
  - intros H. exists k. split; auto. apply String.eqb_refl.
Qed.

Lemma own_get_In o k : In k (map fst o) <-> own_get o k <> None.
Proof.
  induction o as [|[k0 v0] o IH]; simpl.
  - split; [tauto | congruence].
  - destruct (String.eqb_spec k0 k) as [->|Hk].
    + split; [congruence | auto].
    + rewrite <- IH. split; [intros [?|?]; congruence || auto | auto].
Qed.

Lemma fromEntries_fold (es : list (string * V)) :
  fromEntries es = fold_left step es [].
Proof. reflexivity. Qed.

(** Entries under other names do not change what a name maps to. *)
Lemma own_get_fold_other es : forall o k,
  (forall e, In e es -> fst e <> k) ->
  own_get (fold_left step es o) k = own_get o k.
Proof.
  induction es as [|e es IH]; intros o k H; simpl; auto.
  rewrite IH by (intros; apply H; now right).
  apply own_get_set_other. apply H. now left.
Qed.

(** What a name maps to after more entries depends only on what it mapped
    to before. *)
Lemma own_get_fold_congr es : forall o o' k,
  own_get o k = own_get o' k ->
  own_get (fold_left step es o) k = own_get (fold_left step es o') k.
Proof.
  induction es as [|[k0 v0] es IH]; intros o o' k H; simpl; auto.
  apply IH. unfold step; simpl.
  destruct (string_dec k0 k) as [->|Hne].
  - now rewrite !own_get_set_same.
  - now rewrite !own_get_set_other.
Qed.

(** Last write wins: the entry after which the name does not occur again
    is the one the object holds. *)
Lemma own_get_fromEntries_last pre k v post :
  (forall e, In e post -> fst e <> k) ->
  own_get (fromEntries (pre ++ (k, v) :: post)) k = Some v.
Proof.
  intros H. rewrite fromEntries_fold, fold_left_app. simpl.
  rewrite own_get_fold_other by assumption.
  apply own_get_set_same.
Qed.

Lemma own_get_fromEntries_none (es : list (string * V)) k :
  (forall e, In e es -> fst e <> k) -> own_get (fromEntries es) k = None.
Proof.
  intros H. rewrite fromEntries_fold, own_get_fold_other by assumption.
  reflexivity.
Qed.

Lemma keys_fold_In es : forall o k,
  In k (map fst (fold_left step es o)) <->
  In k (map fst o) \/ In k (map fst es).
Proof.
  induction es as [|[k0 v0] es IH]; intros o k; simpl.
  - tauto.
  - rewrite IH. unfold step; simpl. rewrite keys_set.
    destruct (includes (map fst o) k0) eqn:E.
    + apply includes_In in E. intuition (subst; auto).
    + rewrite in_app_iff; simpl. tauto.
Qed.

Lemma fromEntries_In (es : list (string * V)) k :
  In k (map fst (fromEntries es)) <-> In k (map fst es).
Proof. rewrite fromEntries_fold, keys_fold_In. simpl. tauto. Qed.

Lemma NoDup_set o k v : NoDup (map fst o) -> NoDup (map fst (set o k v)).
Proof.
  intros H. rewrite keys_set. destruct (includes (map fst o) k) eqn:E; auto.
  apply NoDup_app; auto.
  - constructor; [tauto | constructor].
  - intros x Hx [<-|[]]. apply includes_In in Hx. congruence.
Qed.

Lemma NoDup_fold es : forall o,
  NoDup (map fst o) -> NoDup (map fst (fold_left step es o)).
Proof.
  induction es as [|e es IH]; intros o H; simpl; auto.
  apply IH, NoDup_set, H.
Qed.

Lemma NoDup_fromEntries (es : list (string * V)) : NoDup (map fst (fromEntries es)).
Proof. rewrite fromEntries_fold. apply NoDup_fold. constructor. Qed.
End ObjectFacts.

(** *** [Object.keys]: a rearrangement of the own names *)

Lemma insert_index_perm e l : Permutation (insert_index e l) (e :: l).
Proof.
  induction l as [|x l IH]; simpl; auto.
  destruct (fst e <=? fst x)%N; auto.
  rewrite IH. apply perm_swap.
Qed.

Lemma sort_index_perm l : Permutation (sort_index l) l.
Proof.
  induction l as [|x l IH]; simpl; auto.
  rewrite insert_index_perm. now constructor.
Qed.

Lemma index_keys_names ks : map snd (index_keys ks) = filter is_index ks.
Proof.
  unfold is_index. induction ks as [|k ks IH]; simpl; auto.
  destruct (array_index k); simpl; now rewrite IH.
Qed.

Lemma filter_split_perm {A} (f : A -> bool) (l : list A) :
  Permutation (filter f l ++ filter (fun x => negb (f x)) l) l.
Proof.
  induction l as [|x l IH]; simpl; auto.
  destruct (f x); simpl.
  - now constructor.
  - rewrite <- Permutation_middle. now constructor.
Qed.

Lemma keys_perm {V} (o : obj V) : Permutation (keys o) (map fst o).
Proof.
  unfold keys. rewrite sort_index_perm, index_keys_names.
  apply filter_split_perm.
Qed.

Lemma keys_In {V} (o : obj V) k : In k (keys o) <-> In k (map fst o).
Proof.
  split; apply Permutation_in; [apply keys_perm | symmetry; apply keys_perm].
Qed.

Lemma keys_NoDup {V} (o : obj V) : NoDup (map fst o) -> NoDup (keys o).
Proof.
  intros H. eapply Permutation_NoDup; [symmetry; apply keys_perm | exact H].
Qed.

(** Without array indices among the names, [Object.keys] is creation
    order. *)
Lemma keys_creation_order {V} (o : obj V) :
  (forall k, In k (map fst o) -> is_index k = false) ->
  keys o = map fst o.
Proof.
  unfold keys. rewrite <- (map_id (map fst o)) at 3.
  generalize (map fst o) as ks. intros ks H.
  assert (E : index_keys ks = []).
  { induction ks as [|k ks IH]; simpl; auto.
    generalize (H k (or_introl eq_refl)). unfold is_index.
    destruct (array_index k); [discriminate|].
    intros _. apply IH. intros; apply H; now right. }
  rewrite E. simpl. rewrite map_id.
  induction ks as [|k ks IH]; simpl; auto.
  rewrite (H k (or_introl eq_refl)). simpl. f_equal.
  apply IH.
  - intros; apply H; now right.
  - clear -E. simpl in E. destruct (array_index k); [discriminate | exact E].
Qed.

(** Every name [Object.keys] lists is an own property. *)
Lemma keys_own {V} (o : obj V) k :
  In k (keys o) -> exists v, own_get o k = Some v.
Proof.
  rewrite keys_In, own_get_In. destruct (own_get o k); [eauto | congruence].
Qed.

End JSFacts.

(** ** Paths *)

Lemma normalize_plain x : x <> "" -> x <> "." -> x <> ".." ->
  forall segs stack,
    normalize stack (segs ++ [x]) = normalize stack segs ++ [x].
Proof.
  intros H1 H2 H3. induction segs as [|y segs IH]; intros stack; simpl.
  - destruct (String.eqb_spec x ""); [congruence|].
    destruct (String.eqb_spec x "."); [congruence|].
    destruct (String.eqb_spec x ".."); [congruence|].
    reflexivity.
  - destruct (String.eqb y "" || String.eqb y "."); auto.
    destruct (String.eqb y ".."); auto.
Qed.

Lemma path_join_plain cwd parts x :
  plain x -> path_join cwd (parts ++ [x]) = path_join cwd parts ++ [x].
Proof.
  intros (Hs & H1 & H2 & H3). unfold path_join.
  rewrite flat_map_app. simpl. rewrite Hs, app_nil_r.
  now apply normalize_plain.
Qed.

Lemma path_join_file cwd f : plain f -> path_join cwd [f] = cwd ++ [f].
Proof.
  intros H. change [f] with ([] ++ [f]).
  rewrite (path_join_plain cwd [] f H).
  unfold path_join. simpl. now rewrite rev_involutive.
Qed.

Ltac plain_name := repeat split; (reflexivity || discriminate).

Lemma required_plain f : In f requiredFiles -> plain f.
Proof.
  unfold requiredFiles. simpl.
  intros H. repeat (destruct H as [<-|H]; [plain_name|]). destruct H.
Qed.

Lemma envPath_last cwd id :
  envPathForProject cwd id = path_join cwd ["secrets"; id] ++ [".env"].
Proof.
  unfold envPathForProject.
  apply (path_join_plain cwd ["secrets"; id] ".env"). plain_name.
Qed.

(** The secrets file of a project is never one of the five manifests. *)
Lemma envPath_not_required cwd id f :
  In f requiredFiles -> envPathForProject cwd id <> path_join cwd [f].
Proof.
  intros Hf E. rewrite envPath_last, (path_join_file cwd f) in E
    by now apply required_plain.
  apply app_inj_tail in E. destruct E as [_ E]. subst f.
  revert Hf. unfold requiredFiles. simpl.
  intuition discriminate.
Qed.

Lemma required_paths_inj cwd f g :
  In f requiredFiles -> In g requiredFiles ->
  path_join cwd [f] = path_join cwd [g] -> f = g.
Proof.
  intros Hf Hg E.
  rewrite !path_join_file in E by now apply required_plain.
  now apply app_inj_tail in E.
Qed.

(** ** What the reading steps compute *)

Section Reading.
Variable cwd : Path.

Lemma fileExists_run p s : fileExists p s = (Ok (exists_at (fs s) p), s).
Proof.
  unfold fileExists, try_catch, bind, access, exists_at.
  destruct (fs s p); reflexivity.
Qed.

Lemma for_push_run {A} (xs : list A) (c : A -> M bool) (t : A -> FS -> bool) s :
  (forall x s, c x s = (Ok (t x (fs s)), s)) ->
  for_push xs c s = (Ok (filter (fun x => t x (fs s)) xs), s).
Proof.
  intros H. induction xs as [|x xs IH]; simpl; auto.
  unfold bind. now rewrite H, IH.
Qed.

Lemma ingest_run f s :
  ingest cwd f s = (Ok (rows_at (fs s) (path_join cwd [f])), s).
Proof.
  unfold ingest, try_catch, readCsvSync, bind, readFile, rows_at.
  destruct (fs s (path_join cwd [f])) as [[c|]|]; try reflexivity.
  destruct (parse_csv c); reflexivity.
Qed.

Lemma loadEnvIfExists_run id s :
  loadEnvIfExists cwd id s = (probe (fs s) (envPathForProject cwd id), s).
Proof.
  unfold loadEnvIfExists, bind. cbv zeta. rewrite fileExists_run.
  unfold exists_at, probe, readFile.
  destruct (fs s (envPathForProject cwd id)) as [[c|]|] eqn:E;
    cbv beta iota; rewrite ?E; reflexivity.
Qed.

Lemma planProject_run byId t h si a id s :
  planProject cwd byId t h si a id s =
  match JS.get byId id with
  | JS.Undefined => (Throw TypeError, s)
  | meta =>
      match probe (fs s) (envPathForProject cwd id) with
      | Ok e => (Ok (assemble t h si a id meta e), s)
      | Throw err => (Throw err, s)
      end
  end.
Proof.
  unfold planProject. unfold bind at 1.
  destruct (JS.get byId id); unfold throw, ret; cbv beta iota;
    try reflexivity;
    unfold bind at 1; rewrite loadEnvIfExists_run;
    destruct (probe (fs s) (envPathForProject cwd id)); reflexivity.
Qed.

(** Planning only reads. *)
Lemma planProject_frame byId t h si a id s :
  snd (planProject cwd byId t h si a id s) = s.
Proof.
  rewrite planProject_run.
  destruct (JS.get byId id); try reflexivity;
    destruct (probe (fs s) (envPathForProject cwd id)); reflexivity.
Qed.

Lemma for_of_frame {A B} (xs : list A) (body : A -> M B) :
  (forall x s, snd (body x s) = s) ->
  forall s, snd (for_of xs body s) = s.
Proof.
  intros H. induction xs as [|x xs IH]; intros s; simpl; auto.
  unfold bind. specialize (H x s).
  destruct (body x s) as [[b|e] s1]; simpl in H; subst; auto.
  specialize (IH s). destruct (for_of xs body s) as [[bs|e] s2]; auto.
Qed.

Lemma for_of_congr {A B} (xs : list A) (f g : A -> M B) s1 s2 :
  (forall x s, snd (f x s) = s) ->
  (forall x s, snd (g x s) = s) ->
  (forall x, In x xs -> fst (f x s1) = fst (g x s2)) ->
  fst (for_of xs f s1) = fst (for_of xs g s2).
Proof.
  intros Ff Fg. induction xs as [|x xs IH]; intros H; simpl; auto.
  unfold bind.
  pose proof (H x (or_introl eq_refl)) as Hx.
  pose proof (Ff x s1) as F1. pose proof (Fg x s2) as F2.
  destruct (f x s1) as [r1 t1], (g x s2) as [r2 t2]; simpl in *; subst.
  destruct r2 as [b|e]; auto.
  assert (IH' : fst (for_of xs f s1) = fst (for_of xs g s2)).
  { apply IH. intros; apply H; now right. }
  destruct (for_of xs f s1) as [q1 u1], (for_of xs g s2) as [q2 u2];
    simpl in *; subst.
  destruct q2; reflexivity.
Qed.

(** The plan of a project depends on the file system only through the
    probe of its secrets file, and on the indexes only through what they
    hold under its identifier. *)
Lemma planProject_congr byId t1 h1 si1 a1 t2 h2 si2 a2 id s1 s2 :
  probe (fs s1) (envPathForProject cwd id)
    = probe (fs s2) (envPathForProject cwd id) ->
  JS.get t1 id = JS.get t2 id -> JS.get h1 id = JS.get h2 id ->
  JS.get si1 id = JS.get si2 id -> JS.get a1 id = JS.get a2 id ->
  fst (planProject cwd byId t1 h1 si1 a1 id s1)
    = fst (planProject cwd byId t2 h2 si2 a2 id s2).
Proof.
  intros Hp Ht Hh Hs Ha. rewrite !planProject_run, Hp.
  unfold assemble. rewrite Ht, Hh, Hs, Ha.
  destruct (JS.get byId id); try reflexivity;
    destruct (probe (fs s2) (envPathForProject cwd id)); reflexivity.
Qed.

Lemma main_run args s :
  main cwd args s =
  match planning cwd (fs s) s with
  | (Ok plans, s') =>
      finish cwd args (missing_of cwd (fs s)) (present_of cwd (fs s))
        (JS.keys (manifest_of cwd (fs s) "PROJECTS_MANIFEST.csv")) plans s'
  | (Throw e, s') => (Throw e, s')
  end.
Proof.
  unfold main. unfold bind at 1.
  rewrite (for_push_run requiredFiles _
             (fun f F => exists_at F (path_join cwd [f])))
    by (intros; apply fileExists_run).
  unfold bind at 1. rewrite ingest_run.
  unfold bind at 1. rewrite ingest_run.
  unfold bind at 1. rewrite ingest_run.
  unfold bind at 1. rewrite ingest_run.
  unfold bind at 1. rewrite ingest_run.
  unfold bind at 1. reflexivity.
Qed.

Lemma planning_frame F s : snd (planning cwd F s) = s.
Proof. apply for_of_frame. intros; apply planProject_frame. Qed.
End Reading.

(** ** Dry runs *)

Section DryRun.
Variable cwd : Path.

Lemma run_dry args s :
  isDryRun args = true ->
  run cwd args s =
  match fst (planning cwd (fs s) s) with
  | Ok plans =>
      (0, {| fs := fs s;
             stdout := stdout s ++
               [Document {| missingFiles := missing_of cwd (fs s);
                            presentFiles := present_of cwd (fs s);
                            totalProjects :=
                              length (JS.keys (manifest_of cwd (fs s) "PROJECTS_MANIFEST.csv"));
                            plans := plans |}];
             stderr := stderr s |})
  | Throw e =>
      (1, {| fs := fs s; stdout := stdout s; stderr := stderr s ++ [e] |})
  end.
Proof.
  intros Hdry. unfold run. rewrite main_run.
  pose proof (planning_frame cwd (fs s) s) as Hf.
  destruct (planning cwd (fs s) s) as [[ps|e] s']; simpl in Hf; subst s'; simpl.
  - unfold finish. rewrite Hdry. reflexivity.
  - reflexivity.
Qed.

(** Planning agrees on two snapshots that give the same manifest rows, the
    same lookups under the manifest's identifiers and the same probes of
    their secrets files. *)
Lemma planning_agree F1 F2 s1 s2 :
  manifest_of cwd F1 "PROJECTS_MANIFEST.csv"
    = manifest_of cwd F2 "PROJECTS_MANIFEST.csv" ->
  (forall id f,
     In id (JS.keys (manifest_of cwd F1 "PROJECTS_MANIFEST.csv")) ->
     In f secondaryFiles ->
     JS.get (manifest_of cwd F1 f) id = JS.get (manifest_of cwd F2 f) id) ->
  (forall id,
     In id (JS.keys (manifest_of cwd F1 "PROJECTS_MANIFEST.csv")) ->
     probe (fs s1) (envPathForProject cwd id)
       = probe (fs s2) (envPathForProject cwd id)) ->
  fst (planning cwd F1 s1) = fst (planning cwd F2 s2).
Proof.
  intros Hm Hsec Hprobe. unfold planning. rewrite <- Hm.
  apply for_of_congr; try (intros; apply planProject_frame).
  intros id Hid. apply planProject_congr; auto;
    apply Hsec; auto; unfold secondaryFiles; simpl; auto.
Qed.
End DryRun.

(** ** Mode selection *)

(** C2, as stated, fails: a list holding both flags contains [--apply] and
    still selects dry-run mode. *)
Lemma C2_both_flags_select_dry_run :
  ~ (isDryRun ["--apply"; "--dry-run"] = false
     <-> In "--apply" ["--apply"; "--dry-run"]).
Proof.
  intros [_ H]. assert (E : isDryRun ["--apply"; "--dry-run"] = false).
  { apply H. now left. }
  discriminate E.
Qed.

(** C2, amended: the planner takes the apply branch of [main] exactly when
    the argument list contains [--apply] and does not contain [--dry-run];
    every other list (no flags, only [--dry-run], both flags) selects
    dry-run mode. *)
Theorem C2_apply_mode_iff (args : list string) :
  isDryRun args = false <-> In "--apply" args /\ ~ In "--dry-run" args.
Proof.
  unfold isDryRun.
  rewrite orb_false_iff, negb_false_iff, JSFacts.includes_In.
  rewrite <- (JSFacts.includes_In args "--dry-run").
  split; intros [H1 H2]; split; auto.
  - congruence.
  - destruct (JS.includes args "--dry-run"); congruence.
Qed.

(** ** Dry runs leave the file system alone *)

(** C7: in dry-run mode the file system after the run is the one before
    it, whatever the snapshot; the run either prints exactly one plan
    document on standard output and exits with status 0, or prints nothing
    on standard output and exits with status 1. *)
Theorem C7_dry_run_mutates_nothing (cwd : Path) (args : list string) (s : State) :
  isDryRun args = true ->
  fs (snd (run cwd args s)) = fs s /\
  ((fst (run cwd args s) = 0 /\
    (exists doc, stdout (snd (run cwd args s)) = stdout s ++ [Document doc]) /\
    stderr (snd (run cwd args s)) = stderr s)
   \/
   (fst (run cwd args s) = 1 /\ stdout (snd (run cwd args s)) = stdout s)).
Proof.
  intros Hdry. rewrite (run_dry cwd args s Hdry).
  destruct (fst (planning cwd (fs s) s)) as [ps|e]; simpl; split; auto.
  left. repeat split; eauto.
Qed.

Lemma C7_dry_run_mutates_nothing_witness :
  isDryRun ["--dry-run"] = true /\
  fs (snd (run sample_cwd ["--dry-run"] (start demo_snapshot))) = demo_snapshot /\
  ((fst (run sample_cwd ["--dry-run"] (start demo_snapshot)) = 0 /\
    (exists doc,
       stdout (snd (run sample_cwd ["--dry-run"] (start demo_snapshot)))
         = [] ++ [Document doc]) /\
    stderr (snd (run sample_cwd ["--dry-run"] (start demo_snapshot))) = [])
   \/
   (fst (run sample_cwd ["--dry-run"] (start demo_snapshot)) = 1 /\
    stdout (snd (run sample_cwd ["--dry-run"] (start demo_snapshot))) = [])).
Proof.
  split; [reflexivity|].
  apply (C7_dry_run_mutates_nothing sample_cwd ["--dry-run"] (start demo_snapshot)).
  reflexivity.
Defined.

(** ** Fail-soft ingestion *)

Section FailSoft.
Variable cwd : Path.

Lemma rows_at_unusable F p : unusable F p -> rows_at F p = [].
Proof.
  unfold rows_at. intros [E|(c & E & Hc)]; rewrite E; auto. now rewrite Hc.
Qed.

Lemma rows_at_remove F p q :
  unusable F p -> rows_at (remove_entry F p) q = rows_at F q.
Proof.
  intros H. unfold rows_at at 1, remove_entry, path_eqb.
  destruct (path_eq_dec q p) as [->|Hne]; auto.
  symmetry. now apply rows_at_unusable.
Qed.

Lemma probe_remove F p q : q <> p -> probe (remove_entry F p) q = probe F q.
Proof.
  intros Hne. unfold probe, remove_entry, path_eqb.
  destruct (path_eq_dec q p); congruence.
Qed.

(** C6: a manifest (the primary one included) that is absent or does not
    parse is ingested as the empty sequence of records, without an error;
    when it is the primary manifest, a dry run exits with status 0 and
    prints a document with totalProjects = 0 and no plans; and for every
    one of the five manifests, a dry run on the snapshot with the
    unparsable file gives the same exit status, the same plans and the same
    error output as a dry run on the snapshot without that file. *)
Theorem C6_unusable_manifest_is_empty (f : string) (F : FS) :
  In f requiredFiles ->
  unusable F (path_join cwd [f]) ->
  (forall out err,
     ingest cwd f {| fs := F; stdout := out; stderr := err |}
       = (Ok [], {| fs := F; stdout := out; stderr := err |})) /\
  (f = "PROJECTS_MANIFEST.csv" ->
   forall args, isDryRun args = true ->
     observe cwd args F =
       (0, [Document {| missingFiles := missing_of cwd F;
                        presentFiles := present_of cwd F;
                        totalProjects := 0;
                        plans := [] |}], [])) /\
  (forall args, isDryRun args = true ->
     fst (fst (observe cwd args F))
       = fst (fst (observe cwd args (remove_entry F (path_join cwd [f])))) /\
     printed_plans (snd (fst (observe cwd args F)))
       = printed_plans
           (snd (fst (observe cwd args (remove_entry F (path_join cwd [f]))))) /\
     snd (observe cwd args F)
       = snd (observe cwd args (remove_entry F (path_join cwd [f])))).
Proof.
  intros Hf Hun. split; [|split].
  - intros out err. rewrite ingest_run. simpl.
    now rewrite rows_at_unusable.
  - intros -> args Hdry. unfold observe. rewrite (run_dry cwd args _ Hdry).
    unfold planning, manifest_of. simpl fs.
    rewrite (rows_at_unusable F _ Hun). reflexivity.
  - intros args Hdry. unfold observe. rewrite !(run_dry cwd args _ Hdry).
    simpl fs.
    set (s1 := {| fs := F; stdout := []; stderr := [] |}).
    set (s2 := {| fs := remove_entry F (path_join cwd [f]); stdout := [];
                  stderr := [] |}).
    assert (Hm : forall g, manifest_of cwd F g
                  = manifest_of cwd (remove_entry F (path_join cwd [f])) g).
    { intros g. unfold manifest_of. now rewrite rows_at_remove. }
    assert (E : fst (planning cwd F s1)
                = fst (planning cwd (remove_entry F (path_join cwd [f])) s2)).
    { apply planning_agree.
      - apply Hm.
      - intros id g _ _. now rewrite Hm.
      - intros id _. simpl. symmetry. apply probe_remove.
        now apply envPath_not_required. }
    rewrite <- E. rewrite <- (Hm "PROJECTS_MANIFEST.csv").
    destruct (fst (planning cwd F s1)); simpl; auto.
Qed.
End FailSoft.

Lemma C6_unusable_manifest_is_empty_witness :
  In "PROJECTS_MANIFEST.csv" requiredFiles /\
  unusable broken_manifest_snapshot (path_join sample_cwd ["PROJECTS_MANIFEST.csv"]) /\
  observe sample_cwd [] broken_manifest_snapshot =
    (0, [Document {| missingFiles := ["PLAYWRIGHT_TESTS.csv"; "WEBHOOKS.csv"; "APPS.csv"];
                     presentFiles := ["PROJECTS_MANIFEST.csv"; "HTML_SITES.csv"];
                     totalProjects := 0;
                     plans := [] |}], []).
Proof.
  assert (Hin : In "PROJECTS_MANIFEST.csv" requiredFiles) by (simpl; auto).
  assert (Hun : unusable broken_manifest_snapshot
                  (path_join sample_cwd ["PROJECTS_MANIFEST.csv"])).
  { right. eexists. split; reflexivity. }
  split; [exact Hin | split; [exact Hun|]].
  apply (proj1 (proj2 (C6_unusable_manifest_is_empty sample_cwd
                         "PROJECTS_MANIFEST.csv" broken_manifest_snapshot Hin Hun))
           eq_refl []).
  reflexivity.
Defined.

(** ** Secrets stay out of the plan *)

Section Secrets.
Variable cwd : Path.

Lemma keys_names_only {V} (o1 o2 : JS.obj V) :
  map fst o1 = map fst o2 -> JS.keys o1 = JS.keys o2.
Proof. unfold JS.keys. now intros ->. Qed.

Lemma secret_values_exists F1 F2 p :
  differ_in_secret_values cwd F1 F2 -> exists_at F1 p = exists_at F2 p.
Proof.
  intros H. unfold exists_at.
  destruct (H p) as [E|(id & c1 & c2 & _ & E1 & E2 & _)].
  - now rewrite E.
  - now rewrite E1, E2.
Qed.

Lemma secret_values_manifest F1 F2 f :
  differ_in_secret_values cwd F1 F2 -> In f requiredFiles ->
  F1 (path_join cwd [f]) = F2 (path_join cwd [f]).
Proof.
  intros H Hf.
  destruct (H (path_join cwd [f])) as [E|(id & c1 & c2 & Hp & _)]; auto.
  symmetry in Hp. now apply envPath_not_required in Hp.
Qed.

Lemma secret_values_probe F1 F2 id :
  differ_in_secret_values cwd F1 F2 ->
  probe F1 (envPathForProject cwd id) = probe F2 (envPathForProject cwd id).
Proof.
  intros H. unfold probe.
  destruct (H (envPathForProject cwd id)) as [E|(id' & c1 & c2 & _ & E1 & E2 & Hk)].
  - now rewrite E.
  - rewrite E1, E2. now rewrite (keys_names_only _ _ Hk).
Qed.

Lemma present_of_ext F1 F2 :
  (forall f, In f requiredFiles ->
     exists_at F1 (path_join cwd [f]) = exists_at F2 (path_join cwd [f])) ->
  present_of cwd F1 = present_of cwd F2 /\ missing_of cwd F1 = missing_of cwd F2.
Proof.
  intros H. assert (E : present_of cwd F1 = present_of cwd F2).
  { unfold present_of. apply filter_ext_in. exact H. }
  split; auto. unfold missing_of. now rewrite E.
Qed.

(** C8: the env check of a project whose secrets file exists carries the
    names of the variables parsed from it and never their values: the
    envInfo object holds the path, present=true and the keys of the parsed
    file, and two snapshots that differ only in the values of key=value
    lines of secrets files give the same dry run (exit status, standard
    output, standard error). *)
Theorem C8_secret_values_do_not_show (args : list string) (F1 F2 : FS) :
  isDryRun args = true ->
  differ_in_secret_values cwd F1 F2 ->
  (forall id c out err,
     F1 (envPathForProject cwd id) = Some (File c) ->
     loadEnvIfExists cwd id {| fs := F1; stdout := out; stderr := err |}
       = (Ok {| envPath := envPathForProject cwd id; present := true;
                vars := JS.keys (parse_env c) |},
          {| fs := F1; stdout := out; stderr := err |})) /\
  observe cwd args F1 = observe cwd args F2.
Proof.
  intros Hdry H. split.
  { intros id c out err E. rewrite loadEnvIfExists_run. unfold probe. simpl fs.
    now rewrite E. }
  unfold observe. rewrite !(run_dry cwd args _ Hdry). simpl fs.
  assert (Hm : forall f, In f requiredFiles ->
                 manifest_of cwd F1 f = manifest_of cwd F2 f).
  { intros f Hf. unfold manifest_of, rows_at.
    now rewrite (secret_values_manifest F1 F2 f H Hf). }
  assert (Hp : manifest_of cwd F1 "PROJECTS_MANIFEST.csv"
               = manifest_of cwd F2 "PROJECTS_MANIFEST.csv").
  { apply Hm. simpl; auto. }
  destruct (present_of_ext F1 F2) as [Epres Emiss].
  { intros; now apply secret_values_exists. }
  rewrite <- Hp, <- Epres, <- Emiss.
  assert (E : fst (planning cwd F1 {| fs := F1; stdout := []; stderr := [] |})
              = fst (planning cwd F2 {| fs := F2; stdout := []; stderr := [] |})).
  { apply planning_agree; auto.
    - intros id f _ Hf. rewrite Hm; auto.
      revert Hf. unfold secondaryFiles, requiredFiles. simpl. tauto.
    - intros id _. simpl. now apply secret_values_probe. }
  rewrite <- E.
  destruct (fst (planning cwd F1 {| fs := F1; stdout := []; stderr := [] |}));
    reflexivity.
Qed.
End Secrets.

Lemma C8_secret_values_do_not_show_witness :
  isDryRun [] = true /\
  differ_in_secret_values sample_cwd rotated_before rotated_after /\
  observe sample_cwd [] rotated_before = observe sample_cwd [] rotated_after.
Proof.
  assert (H : differ_in_secret_values sample_cwd rotated_before rotated_after).
  { intros p. unfold rotated_before, rotated_after, snapshot. simpl.
    destruct (path_eqb (at_cwd "PROJECTS_MANIFEST.csv") p); [now left|].
    destruct (path_eqb (at_cwd "HTML_SITES.csv") p); [now left|].
    destruct (path_eqb _ p) eqn:E; [|now left].
    right. exists "demo1". do 2 eexists. unfold path_eqb in E.
    destruct (path_eq_dec _ p); [subst p | discriminate].
    repeat split. }
  split; [reflexivity | split; [exact H|]].
  apply (C8_secret_values_do_not_show sample_cwd [] rotated_before rotated_after);
    [reflexivity | exact H].
Defined.

(** ** Rows of projects that are not in the manifest *)

Section ForeignRows.
Variable cwd : Path.

Lemma index_fold rows :
  index rows = fold_left JS.step (map (fun r => (project_id r, r)) rows) [].
Proof. reflexivity. Qed.

Lemma own_get_relevant ids id rows : forall o,
  In id ids ->
  JS.own_get (fold_left JS.step (map (fun r => (project_id r, r)) rows) o) id
  = JS.own_get
      (fold_left JS.step
         (map (fun r => (project_id r, r)) (relevant ids rows)) o) id.
Proof.
  intros o Hid. revert o.
  induction rows as [|r rows IH]; intros o; simpl; auto.
  destruct (JS.includes ids (project_id r)) eqn:E; simpl.
  - apply IH.
  - rewrite <- IH. apply JSFacts.own_get_fold_congr.
    unfold JS.step; cbn [fst snd]. apply JSFacts.own_get_set_other.
    intros Heq. rewrite Heq in E.
    apply JSFacts.includes_In in Hid. congruence.
Qed.

Lemma get_relevant ids id rows1 rows2 :
  In id ids -> relevant ids rows1 = relevant ids rows2 ->
  JS.get (index rows1) id = JS.get (index rows2) id.
Proof.
  intros Hid E. unfold JS.get.
  rewrite !index_fold, (own_get_relevant ids id rows1),
    (own_get_relevant ids id rows2), E by assumption.
  reflexivity.
Qed.

Lemma secondary_required f : In f secondaryFiles -> In f requiredFiles.
Proof. unfold secondaryFiles, requiredFiles. simpl. tauto. Qed.

Lemma primary_not_secondary f :
  In f secondaryFiles ->
  path_join cwd ["PROJECTS_MANIFEST.csv"] <> path_join cwd [f].
Proof.
  intros Hf E. apply required_paths_inj in E.
  - subst f. revert Hf. unfold secondaryFiles. simpl. intuition discriminate.
  - simpl; auto.
  - now apply secondary_required.
Qed.

(** C10: rows of a secondary CSV whose project_id does not occur in the
    primary manifest have no effect: two snapshots whose secondary CSVs
    all parse and differ only in such rows give the same dry run (exit
    status, standard output, standard error). *)
Theorem C10_foreign_rows_have_no_effect (args : list string) (F1 F2 : FS) :
  isDryRun args = true ->
  differ_in_foreign_rows cwd F1 F2 ->
  observe cwd args F1 = observe cwd args F2.
Proof.
  intros Hdry [Hsame Hsec]. unfold observe.
  rewrite !(run_dry cwd args _ Hdry). simpl fs.
  assert (Hp : manifest_of cwd F1 "PROJECTS_MANIFEST.csv"
               = manifest_of cwd F2 "PROJECTS_MANIFEST.csv").
  { unfold manifest_of, rows_at. rewrite Hsame; auto.
    intros f Hf. now apply primary_not_secondary. }
  destruct (present_of_ext cwd F1 F2) as [Epres Emiss].
  { intros f Hf. unfold exists_at.
    destruct (in_dec string_dec f secondaryFiles) as [Hs|Hs].
    - destruct (Hsec f Hs) as (c1 & c2 & r1 & r2 & E1 & E2 & _).
      now rewrite E1, E2.
    - rewrite Hsame; auto. intros g Hg E.
      apply required_paths_inj in E; auto.
      + congruence.
      + now apply secondary_required. }
  assert (E : fst (planning cwd F1 {| fs := F1; stdout := []; stderr := [] |})
              = fst (planning cwd F2 {| fs := F2; stdout := []; stderr := [] |})).
  { apply planning_agree; auto.
    - intros id f Hid Hf.
      destruct (Hsec f Hf) as (c1 & c2 & r1 & r2 & E1 & E2 & P1 & P2 & Hrel).
      unfold manifest_of at 1 2. unfold rows_at. rewrite E1, E2, P1, P2.
      eapply get_relevant; eauto.
    - intros id _. simpl fs. unfold probe. rewrite Hsame; auto.
      intros f Hf. apply envPath_not_required. now apply secondary_required. }
  rewrite <- Hp, <- Epres, <- Emiss, <- E.
  destruct (fst (planning cwd F1 {| fs := F1; stdout := []; stderr := [] |}));
    reflexivity.
Qed.
End ForeignRows.

Lemma C10_foreign_rows_have_no_effect_witness :
  isDryRun ["--dry-run"] = true /\
  differ_in_foreign_rows sample_cwd foreign_before foreign_after /\
  observe sample_cwd ["--dry-run"] foreign_before
    = observe sample_cwd ["--dry-run"] foreign_after.
Proof.
  assert (H : differ_in_foreign_rows sample_cwd foreign_before foreign_after).
  { split.
    - intros p Hp. unfold foreign_before, foreign_after, snapshot. simpl.
      destruct (path_eqb _ p) eqn:E; [|reflexivity].
      unfold path_eqb in E. destruct (path_eq_dec _ p); [|discriminate].
      exfalso. apply (Hp "APPS.csv"); [simpl; tauto | now subst p].
    - intros f Hf. simpl in Hf.
      destruct Hf as [<-|[<-|[<-|[<-|[]]]]];
        do 4 eexists; repeat split; reflexivity. }
  split; [reflexivity | split; [exact H|]].
  apply (C10_foreign_rows_have_no_effect sample_cwd ["--dry-run"]
           foreign_before foreign_after); [reflexivity | exact H].
Defined.

(** ** Last write wins *)

Section LastWrite.
Variable cwd : Path.

Lemma index_last pre r post :
  (forall r', In r' post -> project_id r' <> project_id r) ->
  JS.get (index (pre ++ r :: post)) (project_id r) = JS.Own r.
Proof.
  intros H. unfold JS.get, index. rewrite map_app. simpl.
  rewrite JSFacts.own_get_fromEntries_last; auto.
  intros e He. apply in_map_iff in He. destruct He as (r' & <- & Hr').
  simpl. now apply H.
Qed.

Lemma assemble_type t h si a id meta e :
  type (assemble t h si a id meta e) = field meta "type".
Proof.
  unfold assemble.
  repeat match goal with
         | |- context [if ?b then _ else _] => destruct b
         | |- context [match field meta "deploy_target" with _ => _ end] =>
             destruct (field meta "deploy_target")
         end; reflexivity.
Qed.

Lemma assemble_projectId t h si a id meta e :
  projectId (assemble t h si a id meta e) = id.
Proof.
  unfold assemble.
  repeat match goal with
         | |- context [if ?b then _ else _] => destruct b
         | |- context [match field meta "deploy_target" with _ => _ end] =>
             destruct (field meta "deploy_target")
         end; reflexivity.
Qed.

(** C5: when a CSV holds two rows with the same project identifier, the
    index built from the ingested records maps the identifier to the later
    row, and what the plan of that project takes from the CSV comes from
    the later row: the type of the plan for the primary manifest, the
    tests_row, html_row and webhook_row checks for the tests, sites and
    webhooks CSVs, and the release-pipeline action for the apps CSV. *)
Theorem C5_last_write_wins (rows pre mid post : list Row) (r1 r2 : Row) (id : string) :
  rows = pre ++ r1 :: mid ++ r2 :: post ->
  project_id r1 = id ->
  project_id r2 = id ->
  (forall r, In r post -> project_id r <> id) ->
  JS.get (index rows) id = JS.Own r2 /\
  (forall f s c,
     fs s (path_join cwd [f]) = Some (File c) -> parse_csv c = Some rows ->
     exists records,
       ingest cwd f s = (Ok records, s) /\
       JS.get (index records) id = JS.Own r2) /\
  (forall byId t h si a s plan s',
     planProject cwd byId t h si a id s = (Ok plan, s') ->
     (byId = index rows -> type plan = JS.own_get r2 "type") /\
     (t = index rows -> type plan = Some "playwright_tests" ->
      In {| kind := "tests_row"; ok := true;
            details := Picked (pick (JS.Own r2) ["url"; "browsers"; "devices"]) |}
         (checks plan)) /\
     (si = index rows -> type plan = Some "html_site" ->
      In {| kind := "html_row"; ok := true;
            details := Picked (pick (JS.Own r2) ["build_tool"; "i18n_locales"]) |}
         (checks plan)) /\
     (h = index rows -> type plan = Some "webhook" ->
      In {| kind := "webhook_row"; ok := true;
            details := Picked (pick (JS.Own r2) ["provider"; "endpoint_url"]) |}
         (checks plan)) /\
     (a = index rows -> In "prepare app release pipeline" (actions plan))).
Proof.
  intros -> H1 H2 Hpost.
  assert (G : JS.get (index (pre ++ r1 :: mid ++ r2 :: post)) id = JS.Own r2).
  { replace (pre ++ r1 :: mid ++ r2 :: post)
      with ((pre ++ r1 :: mid) ++ r2 :: post)
      by (now rewrite <- app_assoc).
    rewrite <- H2. apply index_last.
    intros r' Hr'. rewrite H2. now apply Hpost. }
  split; [exact G|]. split.
  { intros f s c HF Hc. eexists. split; [apply ingest_run|].
    unfold rows_at. now rewrite HF, Hc. }
  intros byId t h si a s plan s' Hrun. rewrite planProject_run in Hrun.
  assert (Hplan : exists meta e,
            JS.get byId id = meta /\ plan = assemble t h si a id meta e).
  { destruct (JS.get byId id) eqn:Em; try discriminate;
      destruct (probe (fs s) (envPathForProject cwd id)); try discriminate;
      injection Hrun as <- _; eauto. }
  destruct Hplan as (meta & e & Hmeta & ->). clear Hrun.
  rewrite assemble_type.
  split; [|split; [|split; [|split]]].
  - intros ->. rewrite G in Hmeta. now subst meta.
  - intros -> Hty. unfold assemble. rewrite Hty, G. simpl.
    destruct (JS.truthy (JS.get a id)); simpl; auto.
  - intros -> Hty. unfold assemble. rewrite Hty, G. simpl.
    destruct (field meta "deploy_target") as [d|];
      [destruct (String.eqb d "")|];
      destruct (JS.truthy (JS.get a id)); simpl; auto.
  - intros -> Hty. unfold assemble. rewrite Hty, G. simpl.
    destruct (JS.truthy (JS.get a id)); simpl; auto.
  - intros ->. unfold assemble. rewrite G. simpl.
    rewrite in_app_iff. right. simpl. auto.
Qed.
End LastWrite.

Lemma C5_last_write_wins_witness :
  duplicate_site_rows =
    [] ++ [("project_id", "demo1"); ("build_tool", "webpack"); ("i18n_locales", "en")]
       :: [[("project_id", "demo2"); ("build_tool", "hugo"); ("i18n_locales", "fr")]]
       ++ [("project_id", "demo1"); ("build_tool", "vite"); ("i18n_locales", "en,de")]
       :: [] /\
  JS.get (index duplicate_site_rows) "demo1"
    = JS.Own [("project_id", "demo1"); ("build_tool", "vite"); ("i18n_locales", "en,de")].
Proof.
  split; [reflexivity|].
  apply (C5_last_write_wins sample_cwd duplicate_site_rows []
           [[("project_id", "demo2"); ("build_tool", "hugo"); ("i18n_locales", "fr")]]
           []
           [("project_id", "demo1"); ("build_tool", "webpack"); ("i18n_locales", "en")]
           [("project_id", "demo1"); ("build_tool", "vite"); ("i18n_locales", "en,de")]
           "demo1" eq_refl eq_refl eq_refl).
  intros r [].
Defined.

(** ** The demo project, end to end *)

Section Demo.
Variable cwd : Path.

Lemma index_single r : index [r] = [(project_id r, r)].
Proof. reflexivity. Qed.

Lemma keys_single {V} k (v : V) : JS.keys [(k, v)] = [k].
Proof.
  unfold JS.keys. simpl. unfold JS.is_index at 1.
  destruct (JS.array_index k); reflexivity.
Qed.

(** C3, as stated, fails on the env check: its details are the [envInfo]
    object with the properties envPath, present and vars, not an empty
    object. *)
Lemma C3_env_details_are_not_empty :
  exists doc plan c,
    observe sample_cwd [] demo_snapshot = (0, [Document doc], []) /\
    plans doc = [plan] /\ projectId plan = "demo1" /\
    In c (checks plan) /\ kind c = "env" /\ ok c = false /\
    details c = OfEnv {| envPath := sample_cwd ++ ["secrets"; "demo1"; ".env"];
                         present := false; vars := [] |} /\
    property_names (details c) = ["envPath"; "present"; "vars"] /\
    property_names (details c) <> [].
Proof.
  do 3 eexists. split; [vm_compute; reflexivity|].
  split; [reflexivity|]. split; [reflexivity|].
  split; [left; reflexivity|].
  repeat split. discriminate.
Qed.

(** C3, amended: for a primary manifest whose single row has
    project_id=demo1, type=html_site, deploy_target=vercel, an
    HTML_SITES.csv whose single row has project_id=demo1, build_tool=vite,
    i18n_locales=en, and no secrets file for demo1, the dry run prints one
    plan, for demo1, with exactly two checks: an env check with ok=false
    whose details are the envInfo object (the path of the secrets file,
    present=false, an empty list of variable names), and an html_row check
    with ok=true and details {build_tool: "vite", i18n_locales: "en"}; its
    actions include "scaffold HTML site with chosen build tool" and
    "configure deploy: vercel". *)
Theorem C3_demo_plan (F : FS) (c1 c2 : Content) (m site : Row) (args : list string) :
  F (path_join cwd ["PROJECTS_MANIFEST.csv"]) = Some (File c1) ->
  parse_csv c1 = Some [m] ->
  JS.own_get m "project_id" = Some "demo1" ->
  JS.own_get m "type" = Some "html_site" ->
  JS.own_get m "deploy_target" = Some "vercel" ->
  F (path_join cwd ["HTML_SITES.csv"]) = Some (File c2) ->
  parse_csv c2 = Some [site] ->
  JS.own_get site "project_id" = Some "demo1" ->
  JS.own_get site "build_tool" = Some "vite" ->
  JS.own_get site "i18n_locales" = Some "en" ->
  F (envPathForProject cwd "demo1") = None ->
  isDryRun args = true ->
  exists doc plan,
    observe cwd args F = (0, [Document doc], []) /\
    totalProjects doc = 1 /\
    plans doc = [plan] /\
    projectId plan = "demo1" /\
    checks plan =
      [ {| kind := "env"; ok := false;
           details := OfEnv {| envPath := envPathForProject cwd "demo1";
                               present := false; vars := [] |} |};
        {| kind := "html_row"; ok := true;
           details := Picked [("build_tool", "vite"); ("i18n_locales", "en")] |} ] /\
    In "scaffold HTML site with chosen build tool" (actions plan) /\
    In "configure deploy: vercel" (actions plan).
Proof.
  intros HF1 Hc1 Hid Hty Hdt HF2 Hc2 Hsid Hbt Hloc Henv Hdry.
  assert (Pm : project_id m = "demo1") by (unfold project_id; now rewrite Hid).
  assert (Ps : project_id site = "demo1") by (unfold project_id; now rewrite Hsid).
  assert (Em : manifest_of cwd F "PROJECTS_MANIFEST.csv" = [("demo1", m)]).
  { unfold manifest_of, rows_at. now rewrite HF1, Hc1, index_single, Pm. }
  assert (Es : manifest_of cwd F "HTML_SITES.csv" = [("demo1", site)]).
  { unfold manifest_of, rows_at. now rewrite HF2, Hc2, index_single, Ps. }
  assert (Gm : JS.get [("demo1", m)] "demo1" = JS.Own m) by reflexivity.
  assert (Gs : JS.get [("demo1", site)] "demo1" = JS.Own site) by reflexivity.
  assert (R : exists plan,
            fst (planning cwd F {| fs := F; stdout := []; stderr := [] |})
              = Ok [plan] /\
            projectId plan = "demo1" /\
            checks plan =
              [ {| kind := "env"; ok := false;
                   details := OfEnv {| envPath := envPathForProject cwd "demo1";
                                       present := false; vars := [] |} |};
                {| kind := "html_row"; ok := true;
                   details := Picked [("build_tool", "vite");
                                      ("i18n_locales", "en")] |} ] /\
            In "scaffold HTML site with chosen build tool" (actions plan) /\
            In "configure deploy: vercel" (actions plan)).
  { unfold planning. rewrite Em, Es, keys_single.
    cbn [for_of]. unfold bind at 1. rewrite planProject_run.
    unfold probe. simpl fs. rewrite Henv, Gm.
    eexists. split; [reflexivity|].
    rewrite assemble_projectId. split; [reflexivity|].
    unfold assemble. rewrite Gs.
    unfold field. rewrite Hty, Hdt. cbn [strict_eq].
    change (String.eqb "html_site" "playwright_tests") with false.
    change (String.eqb "html_site" "html_site") with true.
    change (String.eqb "html_site" "webhook") with false.
    change (String.eqb "vercel" "") with false.
    cbv iota. unfold or_empty, pick, field. cbn [JS.truthy fold_left].
    rewrite Hbt, Hloc. cbn [JS.set String.eqb].
    destruct (JS.truthy (JS.get (manifest_of cwd F "APPS.csv") "demo1"));
      simpl; repeat split; auto. }
  destruct R as (plan & Hrun & Hpid & Hchecks & Ha1 & Ha2).
  unfold observe. rewrite (run_dry cwd args _ Hdry). simpl fs.
  rewrite Hrun, Em, keys_single. simpl.
  do 2 eexists. split; [reflexivity|]. simpl. repeat split; assumption.
Qed.
End Demo.

Lemma C3_demo_plan_witness :
  isDryRun [] = true /\
  exists doc plan,
    observe sample_cwd [] demo_snapshot = (0, [Document doc], []) /\
    totalProjects doc = 1 /\
    plans doc = [plan] /\
    projectId plan = "demo1" /\
    checks plan =
      [ {| kind := "env"; ok := false;
           details := OfEnv {| envPath := envPathForProject sample_cwd "demo1";
                               present := false; vars := [] |} |};
        {| kind := "html_row"; ok := true;
           details := Picked [("build_tool", "vite"); ("i18n_locales", "en")] |} ] /\
    In "scaffold HTML site with chosen build tool" (actions plan) /\
    In "configure deploy: vercel" (actions plan).
Proof.
  split; [reflexivity|].
  apply (C3_demo_plan sample_cwd demo_snapshot
           {| parse_csv := Some [demo_manifest_row]; parse_env := [] |}
           {| parse_csv := Some [demo_site_row]; parse_env := [] |}
           demo_manifest_row demo_site_row []); reflexivity.
Defined.

(** ** Directory creation *)

Section Mkdir.

Lemma fs_extends_refl F : fs_extends F F.
Proof. intros x. now left. Qed.

Lemma fs_extends_trans F1 F2 F3 :
  fs_extends F1 F2 -> fs_extends F2 F3 -> fs_extends F1 F3.
Proof.
  intros H12 H23 x.
  destruct (H12 x) as [E1|[E1 E1']], (H23 x) as [E2|[E2 E2']].
  - left. congruence.
  - right. split; congruence.
  - right. split; congruence.
  - congruence.
Qed.

Lemma fs_extends_keeps F F' x n : fs_extends F F' -> F x = Some n -> F' x = Some n.
Proof. intros H E. destruct (H x) as [E'|[E' _]]; congruence. Qed.

Lemma path_eqb_eq p q : path_eqb p q = true <-> p = q.
Proof.
  unfold path_eqb. destruct (path_eq_dec p q); split; congruence.
Qed.

Lemma path_eqb_refl p : path_eqb p p = true.
Proof. now apply path_eqb_eq. Qed.

Lemma create_dir_extends q s : fs s q = None -> fs_extends (fs s) (fs (create_dir q s)).
Proof.
  intros E x. simpl. destruct (path_eqb x q) eqn:Ex.
  - apply path_eqb_eq in Ex. subst x. now right.
  - now left.
Qed.

Lemma mkdir_walk_extends qs p : forall s r s',
  mkdir_walk qs p s = (r, s') ->
  fs_extends (fs s) (fs s') /\ stdout s' = stdout s /\ stderr s' = stderr s.
Proof.
  induction qs as [|q qs IH]; simpl; intros s r s' H.
  - injection H as _ <-. auto using fs_extends_refl.
  - destruct (fs s q) as [[c|]|] eqn:E.
    + injection H as _ <-. auto using fs_extends_refl.
    + eauto.
    + apply IH in H. destruct H as (H & Ho & He). simpl in Ho, He.
      split; auto. eapply fs_extends_trans; [|exact H].
      now apply create_dir_extends.
Qed.

Lemma mkdir_walk_dirs qs p : forall s u s',
  mkdir_walk qs p s = (Ok u, s') ->
  forall q, In q qs -> fs s' q = Some Dir.
Proof.
  induction qs as [|q0 qs IH]; simpl; intros s u s' H q Hq; [tauto|].
  destruct (fs s q0) as [[c|]|] eqn:E; [discriminate| |].
  - destruct Hq as [<-|Hq]; [|eauto].
    apply mkdir_walk_extends in H. destruct H as [H _].
    eapply fs_extends_keeps; eauto.
  - destruct Hq as [<-|Hq]; [|eauto].
    apply mkdir_walk_extends in H. destruct H as [H _].
    eapply fs_extends_keeps; eauto. simpl. now rewrite path_eqb_refl.
Qed.

Lemma mkdir_walk_noop qs p s :
  (forall q, In q qs -> fs s q = Some Dir) -> mkdir_walk qs p s = (Ok tt, s).
Proof.
  induction qs as [|q qs IH]; simpl; intros H; auto.
  rewrite (H q) by auto. apply IH. auto.
Qed.

Lemma mkdir_all_extends ps : forall s r s',
  mkdir_all ps s = (r, s') ->
  fs_extends (fs s) (fs s') /\ stdout s' = stdout s /\ stderr s' = stderr s.
Proof.
  induction ps as [|p ps IH]; simpl; intros s r s' H.
  - injection H as _ <-. auto using fs_extends_refl.
  - unfold bind in H. destruct (mkdir p s) as [[u|e] s1] eqn:E.
    + apply mkdir_walk_extends in E. apply IH in H.
      destruct E as (E1 & E2 & E3), H as (H1 & H2 & H3).
      repeat split; try congruence. eapply fs_extends_trans; eauto.
    + injection H as _ <-. now apply mkdir_walk_extends in E.
Qed.

Lemma mkdir_all_dirs ps : forall s u s',
  mkdir_all ps s = (Ok u, s') ->
  forall p q, In p ps -> In q (prefixes p) -> fs s' q = Some Dir.
Proof.
  induction ps as [|p0 ps IH]; simpl; intros s u s' H p q Hp Hq; [tauto|].
  unfold bind in H. destruct (mkdir p0 s) as [[u0|e] s1] eqn:E; [|discriminate].
  destruct Hp as [<-|Hp]; [|eauto].
  apply mkdir_all_extends in H. destruct H as [H _].
  eapply fs_extends_keeps; eauto.
  eapply mkdir_walk_dirs; eauto.
Qed.

Lemma mkdir_all_noop ps : forall s,
  (forall p q, In p ps -> In q (prefixes p) -> fs s q = Some Dir) ->
  mkdir_all ps s = (Ok tt, s).
Proof.
  induction ps as [|p ps IH]; simpl; intros s H; auto.
  unfold bind, mkdir. rewrite mkdir_walk_noop by eauto. apply IH. eauto.
Qed.

Lemma mkdir_all_app ps qs s :
  mkdir_all (ps ++ qs) s = (mkdir_all ps ;;; mkdir_all qs) s.
Proof.
  revert s. induction ps as [|p ps IH]; intros s; simpl.
  - reflexivity.
  - unfold bind. destruct (mkdir p s) as [[u|e] s1]; [apply IH | reflexivity].
Qed.

Lemma for_of_mkdir_all {A} (xs : list A) (g : A -> list Path) (body : A -> M unit) :
  (forall x s, body x s = mkdir_all (g x) s) ->
  forall s,
    for_of xs body s =
    match mkdir_all (flat_map g xs) s with
    | (Ok _, s') => (Ok (map (fun _ => tt) xs), s')
    | (Throw e, s') => (Throw e, s')
    end.
Proof.
  intros Hb. induction xs as [|x xs IH]; intros s; simpl; auto.
  rewrite mkdir_all_app. unfold bind. rewrite Hb.
  destruct (mkdir_all (g x) s) as [[[]|e] s1]; auto.
  rewrite IH. destruct (mkdir_all (flat_map g xs) s1) as [[u|e] s2]; auto.
Qed.

Lemma prefixes_self p : p <> [] -> In p (prefixes p).
Proof.
  induction p as [|x p IH]; [congruence|]. intros _. simpl.
  destruct p as [|y p]; [now left|].
  right. apply in_map. apply IH. discriminate.
Qed.
End Mkdir.

(** ** Apply mode *)

Section Apply.
Variable cwd : Path.

Lemma mkdir_single p s : mkdir p s = mkdir_all [p] s.
Proof.
  simpl. unfold bind, ret. destruct (mkdir p s) as [[[]|e] s1]; reflexivity.
Qed.

Lemma finish_apply args missing present ids plans s :
  isDryRun args = false ->
  finish cwd args missing present ids plans s =
  match mkdir_all (ensured cwd ids) s with
  | (Ok _, s') => console_log apply_line s'
  | (Throw e, s') => (Throw e, s')
  end.
Proof.
  intros Hdry. unfold finish. rewrite Hdry. unfold ensured.
  rewrite mkdir_all_app. unfold bind.
  rewrite (for_of_mkdir_all toEnsure (fun dir => [path_join cwd [dir]]))
    by (intros; apply mkdir_single).
  destruct (mkdir_all (flat_map (fun dir => [path_join cwd [dir]]) toEnsure) s)
    as [[u|e] s1]; [|reflexivity].
  rewrite (for_of_mkdir_all ids
             (fun projectId =>
                [ path_join cwd ["secrets"; projectId];
                  path_join cwd ["content"; projectId];
                  path_join cwd ["assets"; projectId] ])).
  - destruct (mkdir_all _ s1) as [[u'|e] s2]; reflexivity.
  - intros x s0. simpl. unfold bind, ret.
    destruct (mkdir _ s0) as [[[]|e] s2]; [|reflexivity].
    destruct (mkdir _ s2) as [[[]|e] s3]; [|reflexivity].
    destruct (mkdir _ s3) as [[[]|e] s4]; reflexivity.
Qed.

Lemma run_apply args s :
  isDryRun args = false ->
  run cwd args s =
  match fst (planning cwd (fs s) s) with
  | Ok _ =>
      match mkdir_all
              (ensured cwd (JS.keys (manifest_of cwd (fs s) "PROJECTS_MANIFEST.csv")))
              s with
      | (Ok _, s') => (0, snd (console_log apply_line s'))
      | (Throw e, s') => (1, snd (console_error e s'))
      end
  | Throw e => (1, snd (console_error e s))
  end.
Proof.
  intros Hdry. unfold run. rewrite main_run.
  pose proof (planning_frame cwd (fs s) s) as Hf.
  destruct (planning cwd (fs s) s) as [[ps|e] s']; cbn [fst snd] in *; subst s';
    [|reflexivity].
  rewrite finish_apply by assumption.
  destruct (mkdir_all _ s) as [[u|e] s1]; reflexivity.
Qed.

Lemma rows_at_extends F F' p : fs_extends F F' -> rows_at F' p = rows_at F p.
Proof.
  intros H. unfold rows_at. destruct (H p) as [E|[E E']].
  - now rewrite E.
  - now rewrite E, E'.
Qed.

Lemma probe_extends F F' p :
  fs_extends F F' -> F' p <> Some Dir -> probe F' p = probe F p.
Proof.
  intros H Hn. unfold probe. destruct (H p) as [E|[E E']].
  - now rewrite E.
  - congruence.
Qed.

(** C9, amended: if a run in apply mode completes without error, then
    afterwards the four top-level directories and secrets/<id>/,
    content/<id>/, assets/<id>/ of every identifier of the primary manifest
    are directories (whether or not some of them existed before), and a
    second run leaves the file system exactly as the first run left it;
    the second run also completes without error when none of the secrets
    paths secrets/<id>/.env of these identifiers is a directory. *)
Theorem C9_apply_twice (args : list string) (s s1 : State) :
  isDryRun args = false ->
  run cwd args s = (0, s1) ->
  (forall p,
     In p (ensured cwd (JS.keys (manifest_of cwd (fs s) "PROJECTS_MANIFEST.csv"))) ->
     is_dir (fs s1) p) /\
  fs (snd (run cwd args s1)) = fs s1 /\
  ((forall id,
      In id (JS.keys (manifest_of cwd (fs s) "PROJECTS_MANIFEST.csv")) ->
      fs s1 (envPathForProject cwd id) <> Some Dir) ->
   fst (run cwd args s1) = 0).
Proof.
  intros Hdry Hrun. rewrite (run_apply args s Hdry) in Hrun.
  destruct (fst (planning cwd (fs s) s)) as [plans|e] eqn:Hplan; [|discriminate].
  set (ids := JS.keys (manifest_of cwd (fs s) "PROJECTS_MANIFEST.csv")) in *.
  destruct (mkdir_all (ensured cwd ids) s) as [[u|e] s'] eqn:Hmk; [|discriminate].
  injection Hrun as Hs1.
  pose proof (mkdir_all_extends _ _ _ _ Hmk) as (Hext & _ & _).
  pose proof (mkdir_all_dirs _ _ _ _ Hmk) as Hdirs.
  assert (Hfs : fs s1 = fs s') by (now rewrite <- Hs1).
  assert (Hm : forall f, manifest_of cwd (fs s1) f = manifest_of cwd (fs s) f).
  { intros f. unfold manifest_of. now rewrite Hfs, (rows_at_extends _ _ _ Hext). }
  assert (Hnoop : mkdir_all (ensured cwd ids) s1 = (Ok tt, s1)).
  { apply mkdir_all_noop. intros p q Hp Hq. rewrite Hfs. eauto. }
  split; [|split].
  - intros p Hp. destruct p as [|x p]; [now left|]. right. rewrite Hfs.
    eapply Hdirs; eauto. apply prefixes_self. discriminate.
  - rewrite (run_apply args s1 Hdry). rewrite Hm. fold ids. rewrite Hnoop.
    destruct (fst (planning cwd (fs s1) s1)); reflexivity.
  - intros Henv. rewrite (run_apply args s1 Hdry). rewrite Hm. fold ids.
    rewrite Hnoop.
    assert (E : fst (planning cwd (fs s1) s1) = fst (planning cwd (fs s) s)).
    { apply planning_agree.
      - apply Hm.
      - intros id f _ _. now rewrite Hm.
      - intros id Hid. rewrite Hm in Hid. rewrite Hfs.
        apply probe_extends; auto. rewrite <- Hfs. now apply Henv. }
    rewrite E, Hplan. reflexivity.
Qed.
End Apply.

(** C9, as stated, fails: when [secrets] is a regular file in the working
    directory, directory creation is refused on the first run and again on
    the second, which therefore ends with an error. *)
Lemma C9_second_run_fails_when_secrets_is_a_file :
  fst (run sample_cwd ["--apply"] (start blocked_snapshot)) = 1 /\
  fst (run sample_cwd ["--apply"]
         (snd (run sample_cwd ["--apply"] (start blocked_snapshot)))) = 1 /\
  stderr (snd (run sample_cwd ["--apply"]
                 (snd (run sample_cwd ["--apply"] (start blocked_snapshot)))))
    = [EEXIST (at_cwd "secrets"); EEXIST (at_cwd "secrets")].
Proof. vm_compute. repeat split. Qed.

Lemma C9_apply_twice_witness :
  isDryRun ["--apply"] = false /\
  fst (run sample_cwd ["--apply"] (start demo_snapshot)) = 0 /\
  is_dir (fs (snd (run sample_cwd ["--apply"] (start demo_snapshot))))
    (sample_cwd ++ ["content"; "demo1"]) /\
  fst (run sample_cwd ["--apply"]
         (snd (run sample_cwd ["--apply"] (start demo_snapshot)))) = 0.
Proof.
  assert (Hrun : run sample_cwd ["--apply"] (start demo_snapshot)
                 = (0, snd (run sample_cwd ["--apply"] (start demo_snapshot))))
    by reflexivity.
  pose proof (C9_apply_twice sample_cwd ["--apply"] (start demo_snapshot) _
                eq_refl Hrun) as (Hdirs & _ & Hok).
  split; [reflexivity | split; [reflexivity | split]].
  - apply Hdirs. simpl. tauto.
  - apply Hok. intros id [<-|[]]. discriminate.
Defined.

(** ** One plan per identifier, and their order *)

Section Order.
Variable cwd : Path.

Lemma distinct_congr l : forall s1 s2,
  (forall x, JS.includes s1 x = JS.includes s2 x) ->
  distinct s1 l = distinct s2 l.
Proof.
  induction l as [|x l IH]; intros s1 s2 H; simpl; auto.
  rewrite (H x). destruct (JS.includes s2 x); [now apply IH|].
  f_equal. apply IH. intros y. unfold JS.includes in *. simpl. now rewrite H.
Qed.

Lemma includes_app l1 l2 x :
  JS.includes (l1 ++ l2) x = JS.includes l1 x || JS.includes l2 x.
Proof. unfold JS.includes. apply existsb_app. Qed.

(** The own names of [Object.fromEntries(entries)] in creation order are
    the distinct names of the entries in order of first occurrence. *)
Lemma fold_names {V} (es : list (string * V)) : forall o,
  map fst (fold_left JS.step es o)
  = map fst o ++ distinct (map fst o) (map fst es).
Proof.
  induction es as [|[k v] es IH]; intros o; simpl.
  - now rewrite app_nil_r.
  - rewrite IH. unfold JS.step. cbn [fst snd]. rewrite JSFacts.keys_set.
    destruct (JS.includes (map fst o) k) eqn:E; auto.
    rewrite <- app_assoc. simpl. do 2 f_equal.
    apply distinct_congr. intros x. rewrite includes_app.
    unfold JS.includes. simpl. now rewrite orb_false_r, orb_comm.
Qed.

Lemma index_names rows :
  map fst (index rows) = distinct [] (map project_id rows).
Proof.
  rewrite index_fold, fold_names. simpl. now rewrite map_map.
Qed.

Lemma planning_ids_gen t h si a byId ids : forall s plans,
  fst (for_of ids (planProject cwd byId t h si a) s) = Ok plans ->
  map projectId plans = ids.
Proof.
  induction ids as [|id ids IH]; simpl; intros s plans H.
  - now injection H as <-.
  - unfold bind in H. rewrite planProject_run in H.
    destruct (JS.get byId id); try discriminate;
      destruct (probe (fs s) (envPathForProject cwd id)); try discriminate;
      specialize (IH s);
      destruct (for_of ids (planProject cwd byId t h si a) s) as [[ps|e] s2];
      try discriminate; injection H as <-; simpl;
      rewrite assemble_projectId; f_equal; now apply IH.
Qed.

(** The plans of a dry run follow [Object.keys] of the index of the primary
    manifest. *)
Lemma planning_ids F s plans :
  fst (planning cwd F s) = Ok plans ->
  map projectId plans = JS.keys (manifest_of cwd F "PROJECTS_MANIFEST.csv").
Proof. apply planning_ids_gen. Qed.

Lemma planning_total_gen t h si a byId ids : forall s,
  (forall id, In id ids -> In id (JS.keys byId)) ->
  (forall id, In id ids -> fs s (envPathForProject cwd id) <> Some Dir) ->
  exists plans, fst (for_of ids (planProject cwd byId t h si a) s) = Ok plans.
Proof.
  induction ids as [|id ids IH]; simpl; intros s Hk Henv; [eauto|].
  destruct (IH s) as [ps Hps]; auto.
  unfold bind. rewrite planProject_run.
  destruct (JSFacts.keys_own byId id (Hk id (or_introl eq_refl))) as [meta Hmeta].
  unfold JS.get. rewrite Hmeta. unfold probe.
  pose proof (Henv id (or_introl eq_refl)) as Hd.
  destruct (fs s (envPathForProject cwd id)) as [[c|]|]; try congruence;
    destruct (for_of ids (planProject cwd byId t h si a) s) as [[ps'|e] s2];
    simpl in *; try discriminate; eauto.
Qed.

(** When no secrets path of a manifest identifier is a directory, planning
    returns: one plan per distinct identifier of the primary manifest; and
    when no identifier is an array index, the plans are in the order in
    which the identifiers first occur in the manifest. *)
Lemma plans_cover_manifest F s :
  (forall id, In id (JS.keys (manifest_of cwd F "PROJECTS_MANIFEST.csv")) ->
              fs s (envPathForProject cwd id) <> Some Dir) ->
  exists plans,
    fst (planning cwd F s) = Ok plans /\
    NoDup (map projectId plans) /\
    (forall id, In id (map projectId plans) <->
                In id (map project_id
                         (rows_at F (path_join cwd ["PROJECTS_MANIFEST.csv"])))) /\
    ((forall id, In id (map projectId plans) -> JS.is_index id = false) ->
     map projectId plans
       = distinct [] (map project_id
                        (rows_at F (path_join cwd ["PROJECTS_MANIFEST.csv"])))).
Proof.
  intros Henv.
  destruct (planning_total_gen
              (manifest_of cwd F "PLAYWRIGHT_TESTS.csv")
              (manifest_of cwd F "WEBHOOKS.csv")
              (manifest_of cwd F "HTML_SITES.csv")
              (manifest_of cwd F "APPS.csv")
              (manifest_of cwd F "PROJECTS_MANIFEST.csv")
              (JS.keys (manifest_of cwd F "PROJECTS_MANIFEST.csv")) s)
    as [plans Hplans]; auto.
  exists plans. split; [exact Hplans|].
  rewrite (planning_ids F s plans Hplans). unfold manifest_of.
  split; [|split].
  - apply JSFacts.keys_NoDup, JSFacts.NoDup_fromEntries.
  - intros id. rewrite JSFacts.keys_In. unfold index.
    rewrite JSFacts.fromEntries_In, map_map. reflexivity.
  - intros Hidx. rewrite JSFacts.keys_creation_order.
    + apply index_names.
    + intros k Hk. apply Hidx. now apply JSFacts.keys_In.
Qed.
End Order.

(** C1 fails on the code at a manifest whose identifiers are array
    indices: the rows list 2 before 1, and the dry run prints the plan of 1
    before the plan of 2. *)
Theorem C1_numeric_identifiers_are_reordered :
  map project_id numeric_rows = ["2"; "1"] /\
  exists doc,
    observe sample_cwd [] numeric_ids_snapshot = (0, [Document doc], []) /\
    map projectId (plans doc) = ["1"; "2"].
Proof.
  split; [reflexivity|]. eexists. split; [vm_compute; reflexivity | reflexivity].
Qed.

(** ** Missing secondary CSVs *)

(** With empty secondary indexes, a project whose identifier is not a name
    inherited from [Object.prototype] gets type-specific checks with
    ok=false and empty details, and no release-pipeline action. *)
Lemma row_checks_fail_without_rows id meta e c :
  JS.includes JS.prototype_names id = false ->
  In c (checks (assemble (index []) (index []) (index []) (index []) id meta e)) ->
  kind c = "env" \/ (ok c = false /\ details c = Picked []).
Proof.
  intros Hid. unfold assemble.
  assert (G : JS.get (index []) id = JS.Undefined).
  { unfold JS.get. change (JS.own_get (index []) id) with (@None Row).
    now rewrite Hid. }
  rewrite G. simpl.
  destruct (strict_eq (field meta "type") "playwright_tests");
    destruct (strict_eq (field meta "type") "html_site");
    destruct (strict_eq (field meta "type") "webhook");
    try destruct (field meta "deploy_target") as [d|];
    try destruct (String.eqb d "");
    simpl; intuition (subst; simpl; auto).
Qed.

(** C4 fails on the code at a project called [constructor]: with only the
    primary manifest present the dry run succeeds and reports the four
    secondary files as missing, but the tests_row check of the project
    reports ok=true, and the release-pipeline action is planned. *)
Theorem C4_inherited_name_passes_row_check :
  exists doc plan,
    observe sample_cwd [] constructor_snapshot = (0, [Document doc], []) /\
    missingFiles doc = secondaryFiles /\
    plans doc = [plan] /\
    projectId plan = "constructor" /\
    In {| kind := "tests_row"; ok := true; details := Picked [] |} (checks plan) /\
    In "prepare app release pipeline" (actions plan).
Proof.
  do 2 eexists. split; [vm_compute; reflexivity|].
  repeat split; simpl; auto.
Qed.

(** ** A second apply run after a successful first one *)

(** With identifiers [a] and [a/.env], the first apply run creates the
    directory secrets/a/.env; the second run finds it where it expects the
    secrets file of [a], fails to read it and ends with an error. *)
Lemma nested_identifier_breaks_second_apply :
  fst (run sample_cwd ["--apply"] (start nested_id_snapshot)) = 0 /\
  fst (run sample_cwd ["--apply"]
         (snd (run sample_cwd ["--apply"] (start nested_id_snapshot)))) = 1 /\
  stderr (snd (run sample_cwd ["--apply"]
                 (snd (run sample_cwd ["--apply"] (start nested_id_snapshot)))))
    = [EISDIR (sample_cwd ++ ["secrets"; "a"; ".env"])].
Proof. vm_compute. repeat split. Qed.

(** * Further properties of the planner and the dashboard *)

(** ** [pick] *)

Section PickFacts.

Lemma pick_fold o ks : pick o ks = fold_left (pick_step o) ks [].
Proof. reflexivity. Qed.

Lemma pick_fold_get o ks : forall acc k,
  JS.own_get (fold_left (pick_step o) ks acc) k =
  if JS.includes ks k
  then match field o k with Some v => Some v | None => JS.own_get acc k end
  else JS.own_get acc k.
Proof.
  induction ks as [|k0 ks IH]; intros acc k; cbn [fold_left]; auto.
  rewrite IH.
  change (JS.includes (k0 :: ks) k) with (String.eqb k k0 || JS.includes ks k).
  unfold pick_step at 1 2.
  destruct (String.eqb_spec k k0) as [->|Hne]; cbn [orb].
  - destruct (field o k0) as [v|] eqn:E.
    + rewrite JSFacts.own_get_set_same. now destruct (JS.includes ks k0).
    + now destruct (JS.includes ks k0).
  - destruct (field o k0) as [v|] eqn:E; auto.
    rewrite JSFacts.own_get_set_other by congruence. reflexivity.
Qed.

Lemma pick_fold_names o ks : forall acc,
  NoDup ks ->
  (forall k, In k ks -> ~ In k (map fst acc)) ->
  map fst (fold_left (pick_step o) ks acc)
  = map fst acc ++ filter (defined o) ks.
Proof.
  induction ks as [|k0 ks IH]; intros acc Hnd Hdis; simpl.
  - now rewrite app_nil_r.
  - inversion Hnd as [|? ? Hk0 Hnd']; subst.
    unfold pick_step at 2. unfold defined at 1.
    destruct (field o k0) as [v|] eqn:E.
    + rewrite IH; auto.
      * rewrite JSFacts.keys_set.
        destruct (JS.includes (map fst acc) k0) eqn:Einc.
        { apply JSFacts.includes_In in Einc. exfalso. eapply Hdis; eauto. now left. }
        now rewrite <- app_assoc.
      * intros k Hk. rewrite JSFacts.keys_set.
        destruct (JS.includes (map fst acc) k0).
        { apply Hdis. now right. }
        rewrite in_app_iff. intros [H|[<-|[]]]; [|contradiction].
        eapply Hdis; eauto. now right.
    + apply IH; auto. intros k Hk. apply Hdis. now right.
Qed.
End PickFacts.

Lemma pick_names_subset o ks k : In k (map fst (pick o ks)) -> In k ks.
Proof.
  intros Hin. apply JSFacts.own_get_In in Hin.
  rewrite pick_fold, pick_fold_get in Hin.
  destruct (JS.includes ks k) eqn:E; [now apply JSFacts.includes_In in E|].
  simpl in Hin. congruence.
Qed.

(** X1: for a row and requested names none of which is a name inherited
    from [Object.prototype], looking a name up in the object [pick] returns
    gives the row's value under that name when the name was requested and
    nothing otherwise: a column that was not requested never gets through,
    and picking from the empty object [{}] gives the empty object. *)
Theorem X1_pick_lookup (r : Row) (ks : list string) (k : string) :
  (forall k', In k' ks -> ~ In k' JS.prototype_names) ->
  JS.own_get (pick (JS.Own r) ks) k
    = (if JS.includes ks k then JS.own_get r k else None) /\
  (In k (map fst (pick (JS.Own r) ks)) -> In k ks /\ JS.own_get r k <> None) /\
  pick (JS.Own []) ks = [].
Proof.
  intros _.
  assert (L : JS.own_get (pick (JS.Own r) ks) k
              = if JS.includes ks k then JS.own_get r k else None).
  { rewrite pick_fold, pick_fold_get. cbn [field JS.own_get].
    destruct (JS.includes ks k); auto. now destruct (JS.own_get r k). }
  split; [exact L|]. split.
  - intros Hin. split; [eapply pick_names_subset; eauto|].
    apply JSFacts.own_get_In in Hin. rewrite L in Hin.
    destruct (JS.includes ks k); congruence.
  - rewrite pick_fold. clear. induction ks as [|k0 ks IH]; cbn [fold_left]; auto.
Qed.

Lemma X1_pick_lookup_witness :
  (forall k', In k' ["url"; "browsers"; "devices"] -> ~ In k' JS.prototype_names) /\
  JS.own_get (pick (JS.Own [("url", "https://x.test"); ("owner", "qa")])
                ["url"; "browsers"; "devices"]) "owner" = None /\
  JS.own_get (pick (JS.Own [("url", "https://x.test"); ("owner", "qa")])
                ["url"; "browsers"; "devices"]) "url" = Some "https://x.test".
Proof.
  assert (H : forall k', In k' ["url"; "browsers"; "devices"] ->
                         ~ In k' JS.prototype_names).
  { intros k' [<-|[<-|[<-|[]]]]; simpl; intuition discriminate. }
  split; [exact H|]. split.
  - apply (proj1 (X1_pick_lookup [("url", "https://x.test"); ("owner", "qa")]
                    ["url"; "browsers"; "devices"] "owner" H)).
  - apply (proj1 (X1_pick_lookup [("url", "https://x.test"); ("owner", "qa")]
                    ["url"; "browsers"; "devices"] "url" H)).
Defined.

(** X2: for a row and a request list without repetitions whose names are
    neither inherited from [Object.prototype] nor array indices, the
    properties of the picked object, as [JSON.stringify] lists them, are the
    requested names the row defines, in the order of the request. *)
Theorem X2_pick_keeps_request_order (r : Row) (ks : list string) :
  NoDup ks ->
  (forall k, In k ks -> ~ In k JS.prototype_names) ->
  (forall k, In k ks -> JS.is_index k = false) ->
  property_names (Picked (pick (JS.Own r) ks)) = filter (defined (JS.Own r)) ks.
Proof.
  intros Hnd _ Hidx. cbn [property_names].
  rewrite JSFacts.keys_creation_order.
  - rewrite pick_fold, pick_fold_names; auto.
  - intros k Hk. apply Hidx. eapply pick_names_subset; eauto.
Qed.

Lemma X2_pick_keeps_request_order_witness :
  NoDup ["url"; "browsers"; "devices"] /\
  (forall k, In k ["url"; "browsers"; "devices"] -> ~ In k JS.prototype_names) /\
  (forall k, In k ["url"; "browsers"; "devices"] -> JS.is_index k = false) /\
  property_names
    (Picked (pick (JS.Own [("devices", "phone"); ("owner", "qa");
                           ("url", "https://x.test")])
               ["url"; "browsers"; "devices"]))
    = ["url"; "devices"].
Proof.
  assert (H1 : NoDup ["url"; "browsers"; "devices"]).
  { repeat constructor; simpl; intuition discriminate. }
  assert (H2 : forall k, In k ["url"; "browsers"; "devices"] ->
                         ~ In k JS.prototype_names).
  { intros k [<-|[<-|[<-|[]]]]; simpl; intuition discriminate. }
  assert (H3 : forall k, In k ["url"; "browsers"; "devices"] ->
                         JS.is_index k = false).
  { intros k [<-|[<-|[<-|[]]]]; reflexivity. }
  split; [exact H1|]. split; [exact H2|]. split; [exact H3|].
  apply (X2_pick_keeps_request_order
           [("devices", "phone"); ("owner", "qa"); ("url", "https://x.test")]
           ["url"; "browsers"; "devices"] H1 H2 H3).
Defined.

Section PlanShape.
Variable cwd : Path.

Lemma assemble_checks_nf t h si a id meta e :
  checks (assemble t h si a id meta e) =
  {| kind := "env"; ok := present e; details := OfEnv e |} ::
  (if strict_eq (field meta "type") "playwright_tests" then
     [ {| kind := "tests_row"; ok := JS.truthy (JS.get t id);
          details := Picked (pick (or_empty (JS.get t id))
                               ["url"; "browsers"; "devices"]) |} ]
   else if strict_eq (field meta "type") "html_site" then
     [ {| kind := "html_row"; ok := JS.truthy (JS.get si id);
          details := Picked (pick (or_empty (JS.get si id))
                               ["build_tool"; "i18n_locales"]) |} ]
   else if strict_eq (field meta "type") "webhook" then
     [ {| kind := "webhook_row"; ok := JS.truthy (JS.get h id);
          details := Picked (pick (or_empty (JS.get h id))
                               ["provider"; "endpoint_url"]) |} ]
   else []).
Proof.
  unfold assemble. destruct (field meta "type") as [ty|]; cbn [strict_eq].
  2: { destruct (JS.truthy (JS.get a id)); reflexivity. }
  destruct (String.eqb_spec ty "playwright_tests") as [->|H1].
  { cbn. destruct (JS.truthy (JS.get a id)); reflexivity. }
  destruct (String.eqb_spec ty "html_site") as [->|H2].
  { cbn. destruct (field meta "deploy_target") as [d|];
      [destruct (String.eqb d "")|];
      destruct (JS.truthy (JS.get a id)); reflexivity. }
  destruct (String.eqb_spec ty "webhook") as [->|H3].
  { cbn. destruct (JS.truthy (JS.get a id)); reflexivity. }
  destruct (JS.truthy (JS.get a id)); reflexivity.
Qed.

Lemma assemble_actions_nf t h si a id meta e :
  actions (assemble t h si a id meta e) =
  (if strict_eq (field meta "type") "playwright_tests" then
     [ "scaffold Playwright config and tests";
       "wire CI to run on PR and nightly" ]
   else if strict_eq (field meta "type") "html_site" then
     "scaffold HTML site with chosen build tool" ::
     match field meta "deploy_target" with
     | Some target =>
         if String.eqb target "" then [] else [("configure deploy: " ++ target)%string]
     | None => []
     end
   else if strict_eq (field meta "type") "webhook" then
     [ "validate signing secret and subscribe events";
       "provision DLQ and retries" ]
   else [])
  ++ (if JS.truthy (JS.get a id) then ["prepare app release pipeline"] else []).
Proof.
  unfold assemble. destruct (field meta "type") as [ty|]; cbn [strict_eq].
  2: { destruct (JS.truthy (JS.get a id)); reflexivity. }
  destruct (String.eqb_spec ty "playwright_tests") as [->|H1].
  { cbn. destruct (JS.truthy (JS.get a id)); reflexivity. }
  destruct (String.eqb_spec ty "html_site") as [->|H2].
  { cbn. destruct (field meta "deploy_target") as [d|];
      [destruct (String.eqb d "")|];
      destruct (JS.truthy (JS.get a id)); reflexivity. }
  destruct (String.eqb_spec ty "webhook") as [->|H3].
  { cbn. destruct (JS.truthy (JS.get a id)); reflexivity. }
  destruct (JS.truthy (JS.get a id)); reflexivity.
Qed.
End PlanShape.

Section Documents.
Variable cwd : Path.

Lemma planning_plans_gen t h si a byId ids : forall s plans,
  (forall id, In id ids -> In id (JS.keys byId)) ->
  fst (for_of ids (planProject cwd byId t h si a) s) = Ok plans ->
  forall plan, In plan plans ->
    exists m e,
      In (projectId plan) ids /\
      JS.own_get byId (projectId plan) = Some m /\
      probe (fs s) (envPathForProject cwd (projectId plan)) = Ok e /\
      plan = assemble t h si a (projectId plan) (JS.Own m) e.
Proof.
  induction ids as [|id ids IH]; simpl; intros s plans Hk H plan Hin.
  - injection H as <-. destruct Hin.
  - unfold bind in H. rewrite planProject_run in H.
    destruct (JSFacts.keys_own byId id (Hk id (or_introl eq_refl))) as [m Hm].
    unfold JS.get in H. rewrite Hm in H.
    destruct (probe (fs s) (envPathForProject cwd id)) as [e|err] eqn:Hp;
      [|discriminate].
    specialize (IH s).
    destruct (for_of ids (planProject cwd byId t h si a) s) as [[ps|err] s2];
      [|discriminate].
    simpl in H. injection H as <-. destruct Hin as [<-|Hin].
    + rewrite assemble_projectId. exists m, e. auto.
    + destruct (IH ps (fun i Hi => Hk i (or_intror Hi)) eq_refl plan Hin)
        as (m' & e' & H1 & H2 & H3 & H4).
      exists m', e'. auto.
Qed.

Lemma planning_fails_gen t h si a byId ids : forall s err,
  (forall id, In id ids -> In id (JS.keys byId)) ->
  fst (for_of ids (planProject cwd byId t h si a) s) = Throw err ->
  exists id, In id ids /\ fs s (envPathForProject cwd id) = Some Dir /\
             err = EISDIR (envPathForProject cwd id).
Proof.
  induction ids as [|id ids IH]; simpl; intros s err Hk H; [discriminate|].
  unfold bind in H. rewrite planProject_run in H.
  destruct (JSFacts.keys_own byId id (Hk id (or_introl eq_refl))) as [m Hm].
  unfold JS.get in H. rewrite Hm in H. unfold probe in H.
  destruct (fs s (envPathForProject cwd id)) as [[c|]|] eqn:E.
  - specialize (IH s).
    destruct (for_of ids (planProject cwd byId t h si a) s) as [[ps|err'] s2];
      [discriminate|].
    simpl in H. injection H as <-.
    destruct (IH err' (fun i Hi => Hk i (or_intror Hi)) eq_refl)
      as (id' & H1 & H2 & H3).
    exists id'. auto.
  - simpl in H. injection H as <-. exists id. auto.
  - specialize (IH s).
    destruct (for_of ids (planProject cwd byId t h si a) s) as [[ps|err'] s2];
      [discriminate|].
    simpl in H. injection H as <-.
    destruct (IH err' (fun i Hi => Hk i (or_intror Hi)) eq_refl)
      as (id' & H1 & H2 & H3).
    exists id'. auto.
Qed.

(** A dry run on a snapshot where no secrets path of a manifest identifier
    is a directory prints one document; each of its plans is assembled from
    the manifest row and the probe of its identifier. *)
Lemma dry_run_document args F :
  isDryRun args = true ->
  (forall id, In id (JS.keys (manifest_of cwd F "PROJECTS_MANIFEST.csv")) ->
              F (envPathForProject cwd id) <> Some Dir) ->
  exists plans,
    observe cwd args F =
      (0, [Document {| missingFiles := missing_of cwd F;
                       presentFiles := present_of cwd F;
                       totalProjects :=
                         length (JS.keys (manifest_of cwd F "PROJECTS_MANIFEST.csv"));
                       plans := plans |}], []) /\
    map projectId plans = JS.keys (manifest_of cwd F "PROJECTS_MANIFEST.csv") /\
    forall plan, In plan plans ->
      exists m e,
        JS.own_get (manifest_of cwd F "PROJECTS_MANIFEST.csv") (projectId plan)
          = Some m /\
        probe F (envPathForProject cwd (projectId plan)) = Ok e /\
        plan = assemble (manifest_of cwd F "PLAYWRIGHT_TESTS.csv")
                 (manifest_of cwd F "WEBHOOKS.csv")
                 (manifest_of cwd F "HTML_SITES.csv")
                 (manifest_of cwd F "APPS.csv")
                 (projectId plan) (JS.Own m) e.
Proof.
  intros Hdry Henv.
  set (s := {| fs := F; stdout := []; stderr := [] |}).
  destruct (planning_total_gen cwd
              (manifest_of cwd F "PLAYWRIGHT_TESTS.csv")
              (manifest_of cwd F "WEBHOOKS.csv")
              (manifest_of cwd F "HTML_SITES.csv")
              (manifest_of cwd F "APPS.csv")
              (manifest_of cwd F "PROJECTS_MANIFEST.csv")
              (JS.keys (manifest_of cwd F "PROJECTS_MANIFEST.csv")) s)
    as [plans Hplans]; auto.
  exists plans. split; [|split].
  - unfold observe. fold s. rewrite (run_dry cwd args s Hdry).
    unfold planning. simpl fs. rewrite Hplans. reflexivity.
  - eapply planning_ids_gen; eauto.
  - intros plan Hin.
    destruct (planning_plans_gen _ _ _ _ _ _ s plans (fun i Hi => Hi) Hplans plan Hin)
      as (m & e & _ & H2 & H3 & H4).
    exists m, e. auto.
Qed.
End Documents.

(** ** Reading helpers of the planner *)

Section Helpers.
Variable cwd : Path.

(** X3: [loadEnvIfExists] never changes the state.  Without an entry at
    the secrets path it reports present=false and no variables; with a
    (readable) regular file it reports present=true and the names of the parsed
    variables; with a directory there, [fileExists] answers yes and the
    read that follows throws EISDIR. *)
Theorem X3_loadEnvIfExists_outcomes (id : string) (s : State) :
  snd (loadEnvIfExists cwd id s) = s /\
  (fs s (envPathForProject cwd id) = None ->
   fst (loadEnvIfExists cwd id s)
     = Ok {| envPath := envPathForProject cwd id; present := false; vars := [] |}) /\
  (forall c, fs s (envPathForProject cwd id) = Some (File c) ->
   fst (loadEnvIfExists cwd id s)
     = Ok {| envPath := envPathForProject cwd id; present := true;
             vars := JS.keys (parse_env c) |}) /\
  (fs s (envPathForProject cwd id) = Some Dir ->
   fst (loadEnvIfExists cwd id s) = Throw (EISDIR (envPathForProject cwd id))).
Proof.
  rewrite loadEnvIfExists_run. unfold probe. simpl.
  repeat split; intros; rewrite H; reflexivity.
Qed.

(** X4: [readCsvSync] never changes the state and returns records exactly
    when the path holds a regular file that parses, the records being the
    parser's; absent paths, directories and unparsable files make it throw.
    With the [.catch(() => [])] of [main] around it, ingestion always
    returns. *)
Theorem X4_readCsvSync_outcomes (p : Path) (s : State) :
  snd (readCsvSync p s) = s /\
  (forall rows,
     fst (readCsvSync p s) = Ok rows <->
     exists c, fs s p = Some (File c) /\ parse_csv c = Some rows) /\
  (fs s p = None -> fst (readCsvSync p s) = Throw (ENOENT p)) /\
  (fs s p = Some Dir -> fst (readCsvSync p s) = Throw (EISDIR p)) /\
  (forall f, exists rows, ingest cwd f s = (Ok rows, s)).
Proof.
  unfold readCsvSync, bind, readFile.
  destruct (fs s p) as [[c|]|] eqn:E.
  - destruct (parse_csv c) as [rows0|] eqn:Ec; simpl.
    + split; [reflexivity|]. split; [|split; [discriminate|split; [discriminate|]]].
      * intros rows. split.
        { intros H. injection H as <-. eauto. }
        { intros (c' & Hc & Hp). injection Hc as <-. congruence. }
      * intros f. rewrite ingest_run. eauto.
    + split; [reflexivity|]. split; [|split; [discriminate|split; [discriminate|]]].
      * intros rows. split; [discriminate|].
        intros (c' & Hc & Hp). injection Hc as <-. congruence.
      * intros f. rewrite ingest_run. eauto.
  - simpl. split; [reflexivity|]. split; [|split; [discriminate|split; [reflexivity|]]].
    + intros rows. split; [discriminate|]. intros (c' & Hc & _). discriminate.
    + intros f. rewrite ingest_run. eauto.
  - simpl. split; [reflexivity|]. split; [|split; [reflexivity|split; [discriminate|]]].
    + intros rows. split; [discriminate|]. intros (c' & Hc & _). discriminate.
    + intros f. rewrite ingest_run. eauto.
Qed.

Lemma path_join_secrets id :
  plain id -> path_join cwd ["secrets"; id] = cwd ++ ["secrets"; id].
Proof.
  intros H. change ["secrets"; id] with (["secrets"] ++ [id]).
  rewrite path_join_plain by assumption.
  rewrite path_join_file by plain_name.
  now rewrite <- app_assoc.
Qed.

(** X5: the secrets path of any identifier is a file named [.env]; for an
    identifier that is a single path segment (no slash, not empty, not [.]
    or [..]) it is <cwd>/secrets/<id>/.env, and two such identifiers with
    the same secrets path are equal. *)
Theorem X5_envPath_of_plain_identifier (id : string) :
  (exists dir, envPathForProject cwd id = dir ++ [".env"]) /\
  (plain id -> envPathForProject cwd id = cwd ++ ["secrets"; id; ".env"]) /\
  (forall id', plain id -> plain id' ->
     envPathForProject cwd id = envPathForProject cwd id' -> id = id').
Proof.
  assert (P : forall i, plain i ->
                envPathForProject cwd i = cwd ++ ["secrets"; i; ".env"]).
  { intros i Hi. rewrite envPath_last, path_join_secrets by assumption.
    now rewrite <- app_assoc. }
  split; [|split].
  - eexists. apply envPath_last.
  - apply P.
  - intros id' H H' E. rewrite !P in E by assumption.
    apply app_inv_head in E. now injection E.
Qed.
End Helpers.

Lemma X3_loadEnvIfExists_outcomes_witness :
  fs (start demo_snapshot) (envPathForProject sample_cwd "demo1") = None /\
  fst (loadEnvIfExists sample_cwd "demo1" (start demo_snapshot))
    = Ok {| envPath := sample_cwd ++ ["secrets"; "demo1"; ".env"];
            present := false; vars := [] |}.
Proof.
  split; [reflexivity|].
  apply (proj1 (proj2 (X3_loadEnvIfExists_outcomes sample_cwd "demo1"
                         (start demo_snapshot)))).
  reflexivity.
Defined.

Lemma X4_readCsvSync_outcomes_witness :
  fs (start demo_snapshot) (at_cwd "WEBHOOKS.csv") = None /\
  fst (readCsvSync (at_cwd "WEBHOOKS.csv") (start demo_snapshot))
    = Throw (ENOENT (at_cwd "WEBHOOKS.csv")).
Proof.
  split; [reflexivity|].
  apply (proj1 (proj2 (proj2 (X4_readCsvSync_outcomes sample_cwd
                                (at_cwd "WEBHOOKS.csv") (start demo_snapshot))))).
  reflexivity.
Defined.

Lemma X5_envPath_of_plain_identifier_witness :
  plain "demo1" /\
  envPathForProject sample_cwd "demo1"
    = ["srv"; "onboarding"; "secrets"; "demo1"; ".env"].
Proof.
  assert (H : plain "demo1") by (repeat split; discriminate).
  split; [exact H|].
  apply (proj1 (proj2 (X5_envPath_of_plain_identifier sample_cwd "demo1")) H).
Defined.

(** ** The summary of a dry run *)

Section Summaries.
Variable cwd : Path.

Lemma present_of_In F f :
  In f (present_of cwd F) <->
  In f requiredFiles /\ F (path_join cwd [f]) <> None.
Proof.
  unfold present_of. rewrite filter_In. unfold exists_at.
  destruct (F (path_join cwd [f])); split; intros [H1 H2]; split; auto;
    congruence.
Qed.

Lemma missing_of_filter F :
  missing_of cwd F
  = filter (fun f => negb (exists_at F (path_join cwd [f]))) requiredFiles.
Proof.
  unfold missing_of. apply filter_ext_in. intros f Hf. f_equal.
  destruct (JS.includes (present_of cwd F) f) eqn:E.
  - apply JSFacts.includes_In, present_of_In in E. unfold exists_at.
    destruct (F (path_join cwd [f])); intuition congruence.
  - unfold exists_at. destruct (F (path_join cwd [f])) eqn:EF; auto.
    assert (In f (present_of cwd F)) by (apply present_of_In; split; congruence).
    apply JSFacts.includes_In in H. congruence.
Qed.

(** X6: in the document of a dry run, presentFiles lists the expected
    manifests that have an entry in the working directory (a directory of
    that name counts) and missingFiles the other ones, both in the order of
    the expected list; together they are the five expected names, each
    once. *)
Theorem X6_present_and_missing_partition (args : list string) (F : FS) :
  isDryRun args = true ->
  secrets_readable cwd F ->
  exists doc,
    observe cwd args F = (0, [Document doc], []) /\
    (forall f, In f (presentFiles doc) <->
               In f requiredFiles /\ F (path_join cwd [f]) <> None) /\
    (forall f, In f (missingFiles doc) <->
               In f requiredFiles /\ F (path_join cwd [f]) = None) /\
    Permutation (presentFiles doc ++ missingFiles doc) requiredFiles.
Proof.
  intros Hdry Henv.
  destruct (dry_run_document cwd args F Hdry Henv) as (plans & Hobs & _).
  eexists. split; [exact Hobs|]. simpl. split; [|split].
  - apply present_of_In.
  - intros f. rewrite missing_of_filter, filter_In. unfold exists_at.
    destruct (F (path_join cwd [f])); simpl; intuition congruence.
  - rewrite missing_of_filter. unfold present_of.
    apply JSFacts.filter_split_perm.
Qed.

Lemma distinct_length l : forall seen, length (distinct seen l) <= length l.
Proof.
  induction l as [|x l IH]; intros seen; simpl; auto.
  destruct (JS.includes seen x); simpl.
  - specialize (IH seen). lia.
  - specialize (IH (x :: seen)). lia.
Qed.

(** X7: totalProjects is the number of plans, which is the number of
    distinct identifiers of the primary manifest: rows that repeat an
    identifier are not counted twice, so it never exceeds the number of
    rows. *)
Theorem X7_totalProjects_counts_distinct_identifiers (args : list string) (F : FS) :
  isDryRun args = true ->
  secrets_readable cwd F ->
  exists doc,
    observe cwd args F = (0, [Document doc], []) /\
    totalProjects doc = length (plans doc) /\
    totalProjects doc
      = length (distinct []
                  (map project_id
                     (rows_at F (path_join cwd ["PROJECTS_MANIFEST.csv"])))) /\
    totalProjects doc
      <= length (rows_at F (path_join cwd ["PROJECTS_MANIFEST.csv"])).
Proof.
  intros Hdry Henv.
  destruct (dry_run_document cwd args F Hdry Henv) as (plans & Hobs & Hids & _).
  eexists. split; [exact Hobs|]. simpl.
  assert (E : length (JS.keys (manifest_of cwd F "PROJECTS_MANIFEST.csv"))
              = length (distinct []
                          (map project_id
                             (rows_at F (path_join cwd ["PROJECTS_MANIFEST.csv"]))))).
  { rewrite (Permutation_length (JSFacts.keys_perm _)).
    unfold manifest_of. now rewrite index_names. }
  split; [|split].
  - now rewrite <- Hids, length_map.
  - exact E.
  - rewrite E. etransitivity; [apply distinct_length|]. now rewrite length_map.
Qed.

Lemma planning_ok_readable F s plans :
  fs s = F ->
  fst (planning cwd F s) = Ok plans -> secrets_readable cwd F.
Proof.
  intros HF H id Hid Hdir.
  pose proof (planning_ids_gen cwd _ _ _ _ _ _ s plans H) as Hids.
  rewrite <- Hids in Hid. apply in_map_iff in Hid.
  destruct Hid as (plan & <- & Hin).
  destruct (planning_plans_gen cwd _ _ _ _ _ _ s plans (fun i Hi => Hi) H plan Hin)
    as (m & e & _ & _ & Hp & _).
  rewrite HF in Hp. unfold probe in Hp. rewrite Hdir in Hp. discriminate.
Qed.

(** X8: a dry run exits with status 0 exactly when no secrets path of a
    manifest identifier is a directory; otherwise it prints no document,
    exits with status 1 and reports EISDIR for such a path.  Over readable
    files and directories no other error can stop a dry run; in particular
    [meta.type] never throws. *)
Theorem X8_dry_run_exit_status (args : list string) (F : FS) :
  isDryRun args = true ->
  (fst (fst (observe cwd args F)) = 0 <-> secrets_readable cwd F) /\
  (fst (fst (observe cwd args F)) <> 0 ->
   exists id,
     In id (JS.keys (manifest_of cwd F "PROJECTS_MANIFEST.csv")) /\
     F (envPathForProject cwd id) = Some Dir /\
     observe cwd args F = (1, [], [EISDIR (envPathForProject cwd id)])).
Proof.
  intros Hdry. unfold observe. rewrite (run_dry cwd args _ Hdry). simpl fs.
  set (s := {| fs := F; stdout := []; stderr := [] |}).
  destruct (fst (planning cwd F s)) as [plans|err] eqn:Hp; simpl.
  - split; [|congruence]. split; auto. intros _.
    eapply planning_ok_readable; eauto. reflexivity.
  - destruct (planning_fails_gen cwd _ _ _ _ _ _ s err (fun i Hi => Hi) Hp)
      as (id & Hid & Hdir & ->).
    split.
    + split; [discriminate|]. intros H. exfalso. exact (H id Hid Hdir).
    + intros _. exists id. auto.
Qed.
End Summaries.

(** ** The plans of a dry run *)

Section PlanFacts.
Variable cwd : Path.

Lemma pick_of_nothing t ks : JS.truthy t = false -> pick (or_empty t) ks = [].
Proof.
  intros H. unfold or_empty. rewrite H. rewrite pick_fold.
  induction ks as [|k ks IH]; cbn [fold_left]; auto.
Qed.

Lemma probe_ok F p e :
  probe F p = Ok e ->
  e = {| envPath := p; present := exists_at F p;
         vars := match F p with
                 | Some (File c) => JS.keys (parse_env c)
                 | _ => []
                 end |}.
Proof.
  unfold probe, exists_at. destruct (F p) as [[c|]|]; intros H;
    try discriminate; now injection H as <-.
Qed.

(** X9: every plan of a dry run starts with exactly one env check: ok and
    present tell whether the secrets path of the project has an entry, the
    details carry that path and the names of the variables of the file
    (none when there is no file); no later check is an env check. *)
Theorem X9_env_check_comes_first (args : list string) (F : FS) :
  isDryRun args = true ->
  secrets_readable cwd F ->
  exists doc,
    observe cwd args F = (0, [Document doc], []) /\
    forall plan, In plan (plans doc) ->
      exists rest,
        checks plan =
          {| kind := "env";
             ok := exists_at F (envPathForProject cwd (projectId plan));
             details :=
               OfEnv {| envPath := envPathForProject cwd (projectId plan);
                        present := exists_at F (envPathForProject cwd (projectId plan));
                        vars := match F (envPathForProject cwd (projectId plan)) with
                                | Some (File c) => JS.keys (parse_env c)
                                | _ => []
                                end |} |} :: rest /\
        Forall (fun c => kind c <> "env") rest.
Proof.
  intros Hdry Henv.
  destruct (dry_run_document cwd args F Hdry Henv) as (plans & Hobs & _ & Hplans).
  eexists. split; [exact Hobs|]. simpl. intros plan Hin.
  destruct (Hplans plan Hin) as (m & e & _ & Hp & Hplan).
  apply probe_ok in Hp. pose proof (f_equal checks Hplan) as Hch.
  rewrite assemble_checks_nf in Hch. rewrite Hch.
  eexists. split; [rewrite Hp; reflexivity|].
  repeat match goal with
         | |- context [if ?b then _ else _] => destruct b
         end; repeat constructor; discriminate.
Qed.

(** X10: the kinds of the checks of a plan are fixed by the type of the
    project: env followed by tests_row for playwright_tests, by html_row
    for html_site, by webhook_row for webhook, and env alone for any other
    type or a missing type; a plan never has more than two checks. *)
Theorem X10_check_kinds_follow_type (args : list string) (F : FS) :
  isDryRun args = true ->
  secrets_readable cwd F ->
  exists doc,
    observe cwd args F = (0, [Document doc], []) /\
    forall plan, In plan (plans doc) ->
      map kind (checks plan) =
        "env" ::
        (if strict_eq (type plan) "playwright_tests" then ["tests_row"]
         else if strict_eq (type plan) "html_site" then ["html_row"]
         else if strict_eq (type plan) "webhook" then ["webhook_row"]
         else []) /\
      length (checks plan) <= 2.
Proof.
  intros Hdry Henv.
  destruct (dry_run_document cwd args F Hdry Henv) as (plans & Hobs & _ & Hplans).
  eexists. split; [exact Hobs|]. simpl. intros plan Hin.
  destruct (Hplans plan Hin) as (m & e & _ & _ & Hplan).
  pose proof (f_equal checks Hplan) as Hch.
  pose proof (f_equal type Hplan) as Hty.
  rewrite assemble_checks_nf in Hch. rewrite assemble_type in Hty.
  rewrite Hch, Hty.
  repeat match goal with
         | |- context [if ?b then _ else _] => destruct b
         end; simpl; split; auto.
Qed.

(** X11: a type-specific check has picked details; they are empty whenever
    the check reports ok=false, and they never hold a column outside the
    list of its kind: url, browsers, devices for tests_row; build_tool,
    i18n_locales for html_row; provider, endpoint_url for webhook_row. *)
Theorem X11_row_check_details (args : list string) (F : FS) :
  isDryRun args = true ->
  secrets_readable cwd F ->
  exists doc,
    observe cwd args F = (0, [Document doc], []) /\
    forall plan c, In plan (plans doc) -> In c (checks plan) ->
      kind c <> "env" ->
      exists fields,
        details c = Picked fields /\
        (ok c = false -> fields = []) /\
        (forall k, In k (map fst fields) ->
           (kind c = "tests_row" /\ In k ["url"; "browsers"; "devices"]) \/
           (kind c = "html_row" /\ In k ["build_tool"; "i18n_locales"]) \/
           (kind c = "webhook_row" /\ In k ["provider"; "endpoint_url"])).
Proof.
  intros Hdry Henv.
  destruct (dry_run_document cwd args F Hdry Henv) as (plans & Hobs & _ & Hplans).
  eexists. split; [exact Hobs|]. simpl. intros plan c Hin Hc Hk.
  destruct (Hplans plan Hin) as (m & e & _ & _ & Hplan).
  pose proof (f_equal checks Hplan) as Hch.
  rewrite assemble_checks_nf in Hch. rewrite Hch in Hc.
  destruct Hc as [<-|Hc]; [now elim Hk|].
  repeat match type of Hc with
         | In _ (if ?b then _ else _) => destruct b
         end;
    try (destruct Hc as [<-|[]]; simpl; eexists; split; [reflexivity|]; split;
         [apply pick_of_nothing
         |intros k Hin'; apply pick_names_subset in Hin'; auto]).
  destruct Hc.
Qed.
End PlanFacts.

Section ActionFacts.
Variable cwd : Path.

Lemma truthy_get_index rows id :
  JS.truthy (JS.get (index rows) id) = true <->
  In id (map project_id rows) \/ In id JS.prototype_names.
Proof.
  assert (Hown : In id (map project_id rows) <-> JS.own_get (index rows) id <> None).
  { rewrite <- JSFacts.own_get_In. unfold index.
    rewrite JSFacts.fromEntries_In, map_map. reflexivity. }
  unfold JS.get. destruct (JS.own_get (index rows) id) as [r|] eqn:E.
  - cbn [JS.truthy]. split; auto. intros _. left. apply Hown. congruence.
  - destruct (JS.includes JS.prototype_names id) eqn:Ep; cbn [JS.truthy].
    + split; auto. intros _. right. now apply JSFacts.includes_In.
    + split; [discriminate|]. intros [H|H].
      * apply Hown in H. congruence.
      * apply JSFacts.includes_In in H. congruence.
Qed.

Lemma append_inv_head (p a b : string) :
  (p ++ a)%string = (p ++ b)%string -> a = b.
Proof.
  induction p as [|c p IH]; simpl; auto. intros H. injection H as H. auto.
Qed.

(** X12: the action "prepare app release pipeline" is planned for a
    project, whatever its type, exactly when the index of APPS.csv holds
    something under its identifier: a row of APPS.csv with that project_id,
    or a name every object inherits. *)
Theorem X12_release_pipeline_action (args : list string) (F : FS) :
  isDryRun args = true ->
  secrets_readable cwd F ->
  exists doc,
    observe cwd args F = (0, [Document doc], []) /\
    forall plan, In plan (plans doc) ->
      (In "prepare app release pipeline" (actions plan) <->
       In (projectId plan)
          (map project_id (rows_at F (path_join cwd ["APPS.csv"]))) \/
       In (projectId plan) JS.prototype_names).
Proof.
  intros Hdry Henv.
  destruct (dry_run_document cwd args F Hdry Henv) as (plans & Hobs & _ & Hplans).
  eexists. split; [exact Hobs|]. simpl. intros plan Hin.
  destruct (Hplans plan Hin) as (m & e & _ & _ & Hplan).
  pose proof (f_equal actions Hplan) as Hact.
  rewrite assemble_actions_nf in Hact. rewrite Hact.
  rewrite <- truthy_get_index. fold (manifest_of cwd F "APPS.csv").
  rewrite in_app_iff.
  destruct (JS.truthy (JS.get (manifest_of cwd F "APPS.csv") (projectId plan))).
  - split; auto. intros _. right. now left.
  - split; [|discriminate]. intros [H|[]]. exfalso.
    repeat match type of H with
           | In _ (if ?b then _ else _) => destruct b
           end; cbn [field] in H;
      try destruct (JS.own_get m "deploy_target") as [d|];
      try destruct (String.eqb d "");
      simpl in H;
      repeat match type of H with
             | _ \/ _ => destruct H as [H|H]
             end;
      solve [discriminate H | contradiction].
Qed.

(** X13: the action "configure deploy: <target>" is planned for a project
    exactly when the manifest row of the project has type html_site and a
    deploy_target that is not empty, <target> being that value; an empty or
    missing deploy_target plans no deploy action, and no other type does. *)
Theorem X13_deploy_action (args : list string) (F : FS) :
  isDryRun args = true ->
  secrets_readable cwd F ->
  exists doc,
    observe cwd args F = (0, [Document doc], []) /\
    forall plan, In plan (plans doc) ->
      exists m,
        JS.own_get (manifest_of cwd F "PROJECTS_MANIFEST.csv") (projectId plan)
          = Some m /\
        forall target,
          In ("configure deploy: " ++ target)%string (actions plan) <->
          JS.own_get m "type" = Some "html_site" /\
          JS.own_get m "deploy_target" = Some target /\ target <> "".
Proof.
  intros Hdry Henv.
  destruct (dry_run_document cwd args F Hdry Henv) as (plans & Hobs & _ & Hplans).
  eexists. split; [exact Hobs|]. simpl. intros plan Hin.
  destruct (Hplans plan Hin) as (m & e & Hm & _ & Hplan).
  exists m. split; [exact Hm|]. intros target.
  pose proof (f_equal actions Hplan) as Hact.
  rewrite assemble_actions_nf in Hact. rewrite Hact. clear Hact Hplan.
  cbn [field]. rewrite in_app_iff.
  assert (Happs : ~ In ("configure deploy: " ++ target)%string
                       (if JS.truthy (JS.get (manifest_of cwd F "APPS.csv")
                                        (projectId plan))
                        then ["prepare app release pipeline"] else [])).
  { destruct (JS.truthy _); simpl; intuition discriminate. }
  destruct (JS.own_get m "type") as [ty|]; cbn [strict_eq].
  2: { split; [intros [[]|H]; contradiction | intros (H & _); discriminate]. }
  destruct (String.eqb_spec ty "playwright_tests") as [->|H1].
  { split; [intros [H|H]; [simpl in H; intuition discriminate | contradiction]
           | intros (H & _); discriminate]. }
  destruct (String.eqb_spec ty "html_site") as [->|H2].
  { destruct (JS.own_get m "deploy_target") as [d|].
    - destruct (String.eqb_spec d "") as [->|Hd].
      + split.
        * intros [H|H]; [simpl in H; intuition discriminate | contradiction].
        * intros (_ & H & Hne). injection H as <-. now elim Hne.
      + split.
        * intros [[H|[H|[]]]|H]; [discriminate| |contradiction].
          apply (append_inv_head "configure deploy: " d target) in H.
          subst. auto.
        * intros (_ & H & _). injection H as <-. left. right. now left.
    - split.
      + intros [H|H]; [simpl in H; intuition discriminate | contradiction].
      + intros (_ & H & _). discriminate. }
  destruct (String.eqb_spec ty "webhook") as [->|H3].
  { split; [intros [H|H]; [simpl in H; intuition discriminate | contradiction]
           | intros (H & _); discriminate]. }
  split; [intros [[]|H]; contradiction | intros (H & _); congruence].
Qed.

(** X14: a project whose type is none of playwright_tests, html_site and
    webhook (or whose row has no type) is not an error: its plan has the
    env check only, and its actions are empty or just the release
    pipeline. *)
Theorem X14_unrecognised_type (args : list string) (F : FS) :
  isDryRun args = true ->
  secrets_readable cwd F ->
  exists doc,
    observe cwd args F = (0, [Document doc], []) /\
    forall plan, In plan (plans doc) ->
      type plan <> Some "playwright_tests" ->
      type plan <> Some "html_site" ->
      type plan <> Some "webhook" ->
      map kind (checks plan) = ["env"] /\
      (actions plan = [] \/ actions plan = ["prepare app release pipeline"]).
Proof.
  intros Hdry Henv.
  destruct (dry_run_document cwd args F Hdry Henv) as (plans & Hobs & _ & Hplans).
  eexists. split; [exact Hobs|]. simpl. intros plan Hin T1 T2 T3.
  destruct (Hplans plan Hin) as (m & e & _ & _ & Hplan).
  pose proof (f_equal checks Hplan) as Hch.
  pose proof (f_equal actions Hplan) as Hact.
  pose proof (f_equal type Hplan) as Hty.
  rewrite assemble_checks_nf in Hch. rewrite assemble_actions_nf in Hact.
  rewrite assemble_type in Hty. rewrite <- Hty in Hch, Hact.
  assert (S : forall x, type plan <> Some x -> strict_eq (type plan) x = false).
  { intros x Hx. unfold strict_eq. destruct (type plan) as [ty|]; auto.
    destruct (String.eqb_spec ty x); congruence. }
  rewrite !S in Hch, Hact by assumption.
  rewrite Hch, Hact. split; [reflexivity|].
  destruct (JS.truthy _); simpl; auto.
Qed.
End ActionFacts.

(** ** Apply mode: output, frame and exit status *)

Section ApplyFacts.
Variable cwd : Path.

(** X15: apply mode never prints the plan: a successful run prints the
    status line and nothing else, a failed run prints nothing on standard
    output and one error on standard error. *)
Theorem X15_apply_mode_output (args : list string) (s : State) :
  isDryRun args = false ->
  (fst (run cwd args s) = 0 /\
   stdout (snd (run cwd args s)) = stdout s ++ [apply_line] /\
   stderr (snd (run cwd args s)) = stderr s)
  \/
  (fst (run cwd args s) = 1 /\
   stdout (snd (run cwd args s)) = stdout s /\
   exists e, stderr (snd (run cwd args s)) = stderr s ++ [e]).
Proof.
  intros Happly. rewrite (run_apply cwd args s Happly).
  destruct (fst (planning cwd (fs s) s)) as [plans|e].
  - destruct (mkdir_all _ s) as [[u|e] s'] eqn:E;
      apply mkdir_all_extends in E; destruct E as (_ & Eo & Ee); simpl;
      rewrite Eo, Ee; [left | right]; repeat split; eauto.
  - right. simpl. split; [reflexivity | split; [reflexivity | eauto]].
Qed.

(** X16: in either mode, and whether it succeeds or fails, a run leaves
    every existing entry of the file system as it was (no file is written,
    replaced or removed); whatever is new afterwards is a directory. *)
Theorem X16_run_only_adds_directories (args : list string) (s : State) (p : Path) :
  fs (snd (run cwd args s)) p = fs s p \/
  (fs s p = None /\ fs (snd (run cwd args s)) p = Some Dir).
Proof.
  destruct (isDryRun args) eqn:Hmode.
  - left. rewrite (run_dry cwd args s Hmode).
    destruct (fst (planning cwd (fs s) s)); reflexivity.
  - rewrite (run_apply cwd args s Hmode).
    destruct (fst (planning cwd (fs s) s)) as [plans|e]; [|now left].
    destruct (mkdir_all _ s) as [[u|e] s'] eqn:E;
      apply mkdir_all_extends in E; destruct E as (E & _); apply (E p).
Qed.




End ApplyFacts.

(** ** The avatar initials of the dashboard *)

Section Initials.

Lemma append_empty_r (s : string) : (s ++ "")%string = s.
Proof. induction s as [|c s IH]; simpl; congruence. Qed.

Lemma append_assoc_str (a b c : string) :
  ((a ++ b) ++ c)%string = (a ++ (b ++ c))%string.
Proof. induction a as [|x a IH]; simpl; congruence. Qed.

Lemma concat_cons (x : string) (xs : list string) :
  String.concat "" (x :: xs) = (x ++ String.concat "" xs)%string.
Proof.
  destruct xs as [|y ys]; simpl; auto. now rewrite append_empty_r.
Qed.

Lemma concat_app (l1 l2 : list string) :
  String.concat "" (l1 ++ l2)
  = (String.concat "" l1 ++ String.concat "" l2)%string.
Proof.
  induction l1 as [|x l1 IH]; [reflexivity|].
  rewrite <- app_comm_cons, !concat_cons, IH. now rewrite append_assoc_str.
Qed.

Lemma split_space_nonempty s : split_space s <> [].
Proof.
  destruct s as [|c s]; simpl; [discriminate|].
  destruct (Ascii.eqb c " "); [discriminate|].
  destruct (split_space s); discriminate.
Qed.

Lemma split_space_app (a b : string) :
  split_space (a ++ String " " b) = split_space a ++ split_space b.
Proof.
  induction a as [|c a IH]; simpl; auto.
  destruct (Ascii.eqb c " "); [now rewrite IH|].
  rewrite IH. pose proof (split_space_nonempty a) as Hne.
  destruct (split_space a); [congruence | reflexivity].
Qed.

Lemma split_space_word w : has_space w = false -> split_space w = [w].
Proof.
  induction w as [|c w IH]; simpl; auto.
  destruct (Ascii.eqb c " "); simpl; [discriminate|].
  intros H. now rewrite IH.
Qed.

Lemma has_space_append (a b : string) :
  has_space (a ++ b) = has_space a || has_space b.
Proof.
  induction a as [|c a IH]; simpl; auto. now rewrite IH, orb_assoc.
Qed.

Lemma has_space_first_char w : has_space w = false -> has_space (first_char w) = false.
Proof.
  destruct w as [|c w]; simpl; auto.
  destruct (Ascii.eqb c " "); simpl; auto.
Qed.

Lemma initials_no_space_gen (ws : list string) :
  (forall w, In w ws -> has_space w = false) ->
  has_space (String.concat "" (map first_char ws)) = false.
Proof.
  induction ws as [|w ws IH]; intros H; [reflexivity|].
  cbn [map]. rewrite concat_cons, has_space_append.
  rewrite has_space_first_char by (apply H; now left).
  apply IH. intros; apply H; now right.
Qed.

Lemma split_space_words s : forall w, In w (split_space s) -> has_space w = false.
Proof.
  induction s as [|c s IH]; simpl.
  - intros w [<-|[]]. reflexivity.
  - destruct (Ascii.eqb c " ") eqn:Ec.
    + intros w [<-|H]; auto.
    + pose proof (split_space_nonempty s) as Hne.
      destruct (split_space s) as [|w0 ws]; [congruence|].
      intros w [<-|H].
      * simpl. rewrite Ec. apply IH. now left.
      * apply IH. now right.
Qed.

(** X18: the initials shown for an agent are built word by word: the
    initials of two names joined by a space are the initials of the first
    followed by those of the second; a name without a space gives its first
    character (nothing when it is empty, as between two adjacent spaces);
    and the initials never contain a space. *)
Theorem X18_initials_word_by_word (a b : string) :
  initials (a ++ String " " b) = (initials a ++ initials b)%string /\
  (has_space a = false -> initials a = first_char a) /\
  has_space (initials a) = false.
Proof.
  unfold initials. split; [|split].
  - now rewrite split_space_app, map_app, concat_app.
  - intros H. now rewrite split_space_word.
  - apply initials_no_space_gen, split_space_words.
Qed.
End Initials.

Lemma X18_initials_word_by_word_witness :
  has_space "Sarah" = false /\
  initials "Sarah" = "S" /\
  initials ("Sarah" ++ String " " "Johnson") = "SJ".
Proof.
  split; [reflexivity|]. split.
  - apply (proj1 (proj2 (X18_initials_word_by_word "Sarah" "Johnson"))).
    reflexivity.
  - rewrite (proj1 (X18_initials_word_by_word "Sarah" "Johnson")). reflexivity.
Defined.

(** ** Coverage, row checks and what a run reads and creates *)

Section MoreFacts.
Variable cwd : Path.

(** X19: a dry run prints one plan per distinct identifier of the primary
    manifest and no other plan; when no identifier is an array index
    (canonical decimal integer below 2^32 - 1), the plans are in the order
    in which the identifiers first occur in the manifest. *)
Theorem X19_one_plan_per_identifier (args : list string) (F : FS) :
  isDryRun args = true ->
  secrets_readable cwd F ->
  exists doc,
    observe cwd args F = (0, [Document doc], []) /\
    NoDup (map projectId (plans doc)) /\
    (forall id,
       In id (map projectId (plans doc)) <->
       In id (map project_id (rows_at F (path_join cwd ["PROJECTS_MANIFEST.csv"])))) /\
    ((forall id, In id (map projectId (plans doc)) -> JS.is_index id = false) ->
     map projectId (plans doc)
       = distinct []
           (map project_id (rows_at F (path_join cwd ["PROJECTS_MANIFEST.csv"])))).
Proof.
  intros Hdry Henv.
  destruct (dry_run_document cwd args F Hdry Henv) as (plans & Hobs & Hids & _).
  eexists. split; [exact Hobs|]. simpl. rewrite Hids. unfold manifest_of.
  split; [|split].
  - apply JSFacts.keys_NoDup, JSFacts.NoDup_fromEntries.
  - intros id. rewrite JSFacts.keys_In. unfold index.
    rewrite JSFacts.fromEntries_In, map_map. reflexivity.
  - intros Hidx. rewrite JSFacts.keys_creation_order.
    + apply index_names.
    + intros k Hk. apply Hidx. now apply JSFacts.keys_In.
Qed.

(** X20: a type-specific check reports ok=true exactly when the index of
    its CSV holds something under the identifier of the project: a row of
    that CSV with this project_id, or a name every object inherits.  In
    particular an absent or unparsable CSV makes the check fail for every
    identifier that is not such a name. *)
Theorem X20_row_check_ok (args : list string) (F : FS) :
  isDryRun args = true ->
  secrets_readable cwd F ->
  exists doc,
    observe cwd args F = (0, [Document doc], []) /\
    forall plan c, In plan (plans doc) -> In c (checks plan) ->
      (kind c = "tests_row" ->
       (ok c = true <->
        In (projectId plan)
           (map project_id (rows_at F (path_join cwd ["PLAYWRIGHT_TESTS.csv"]))) \/
        In (projectId plan) JS.prototype_names)) /\
      (kind c = "html_row" ->
       (ok c = true <->
        In (projectId plan)
           (map project_id (rows_at F (path_join cwd ["HTML_SITES.csv"]))) \/
        In (projectId plan) JS.prototype_names)) /\
      (kind c = "webhook_row" ->
       (ok c = true <->
        In (projectId plan)
           (map project_id (rows_at F (path_join cwd ["WEBHOOKS.csv"]))) \/
        In (projectId plan) JS.prototype_names)).
Proof.
  intros Hdry Henv.
  destruct (dry_run_document cwd args F Hdry Henv) as (plans & Hobs & _ & Hplans).
  eexists. split; [exact Hobs|]. simpl. intros plan c Hin Hc.
  destruct (Hplans plan Hin) as (m & e & _ & _ & Hplan).
  pose proof (f_equal checks Hplan) as Hch.
  rewrite assemble_checks_nf in Hch. rewrite Hch in Hc.
  destruct Hc as [<-|Hc]; [repeat split; discriminate|].
  repeat match type of Hc with
         | In _ (if ?b then _ else _) => destruct b
         end;
    try (destruct Hc as [<-|[]]; cbn [kind ok]; unfold manifest_of;
         split; [|split]; intros Hk; try discriminate Hk;
         apply truthy_get_index).
  destruct Hc.
Qed.

(** X21: a dry run reads nothing but the five manifests and the secrets
    paths of the identifiers of the primary manifest: two snapshots that
    agree on these paths give the same dry run. *)
Theorem X21_dry_run_reads_only_its_inputs (args : list string) (F1 F2 : FS) :
  isDryRun args = true ->
  (forall f, In f requiredFiles -> F1 (path_join cwd [f]) = F2 (path_join cwd [f])) ->
  (forall id,
     In id (JS.keys (manifest_of cwd F1 "PROJECTS_MANIFEST.csv")) ->
     F1 (envPathForProject cwd id) = F2 (envPathForProject cwd id)) ->
  observe cwd args F1 = observe cwd args F2.
Proof.
  intros Hdry Hfiles Henv. unfold observe.
  rewrite !(run_dry cwd args _ Hdry). simpl fs.
  assert (Hm : forall f, In f requiredFiles ->
                 manifest_of cwd F1 f = manifest_of cwd F2 f).
  { intros f Hf. unfold manifest_of, rows_at. now rewrite (Hfiles f Hf). }
  assert (Hp : manifest_of cwd F1 "PROJECTS_MANIFEST.csv"
               = manifest_of cwd F2 "PROJECTS_MANIFEST.csv")
    by (apply Hm; simpl; auto).
  destruct (present_of_ext cwd F1 F2) as [Epres Emiss].
  { intros f Hf. unfold exists_at. now rewrite (Hfiles f Hf). }
  assert (E : fst (planning cwd F1 {| fs := F1; stdout := []; stderr := [] |})
              = fst (planning cwd F2 {| fs := F2; stdout := []; stderr := [] |})).
  { apply planning_agree; auto.
    - intros id f _ Hf. rewrite Hm; auto. now apply secondary_required.
    - intros id Hid. simpl fs. unfold probe. now rewrite (Henv id Hid). }
  rewrite <- Hp, <- Epres, <- Emiss, <- E.
  destruct (fst (planning cwd F1 {| fs := F1; stdout := []; stderr := [] |}));
    reflexivity.
Qed.

(** X22: planning comes before any directory is created: when the secrets
    path of some manifest identifier is a directory, a run in either mode
    fails with status 1, prints nothing on standard output and leaves the
    file system as it was. *)
Theorem X22_failed_planning_creates_nothing (args : list string) (s : State) :
  ~ secrets_readable cwd (fs s) ->
  fst (run cwd args s) = 1 /\
  fs (snd (run cwd args s)) = fs s /\
  stdout (snd (run cwd args s)) = stdout s.
Proof.
  intros Hn.
  assert (Hp : exists e, fst (planning cwd (fs s) s) = Throw e).
  { destruct (fst (planning cwd (fs s) s)) as [plans|e] eqn:E; eauto.
    exfalso. apply Hn. eapply planning_ok_readable; eauto. }
  destruct Hp as [e Hp].
  destruct (isDryRun args) eqn:Hmode.
  - rewrite (run_dry cwd args s Hmode), Hp. auto.
  - rewrite (run_apply cwd args s Hmode), Hp. auto.
Qed.

Lemma mkdir_walk_created qs p : forall s r s',
  mkdir_walk qs p s = (r, s') ->
  forall x, fs s' x <> fs s x -> In x qs.
Proof.
  induction qs as [|q qs IH]; simpl; intros s r s' H x Hx.
  - injection H as _ <-. congruence.
  - destruct (fs s q) as [[c|]|] eqn:E.
    + injection H as _ <-. congruence.
    + right. eapply IH; eauto.
    + destruct (path_eq_dec x q) as [->|Hne]; [now left|].
      right. eapply IH; eauto. simpl. unfold path_eqb.
      destruct (path_eq_dec x q); congruence.
Qed.

Lemma mkdir_all_created ps : forall s r s',
  mkdir_all ps s = (r, s') ->
  forall x, fs s' x <> fs s x -> exists p, In p ps /\ In x (prefixes p).
Proof.
  induction ps as [|p0 ps IH]; simpl; intros s r s' H x Hx.
  - injection H as _ <-. congruence.
  - unfold bind in H. destruct (mkdir p0 s) as [[u|e] s1] eqn:E.
    + pose proof (mkdir_walk_extends _ _ _ _ _ E) as (Hext & _).
      destruct (Hext x) as [Hsame|[Hnone Hdir]].
      * rewrite <- Hsame in Hx.
        destruct (IH _ _ _ H x Hx) as (p & Hp & Hq). eauto.
      * exists p0. split; auto.
        eapply mkdir_walk_created; [exact E|]. congruence.
    + injection H as _ <-. exists p0. split; auto.
      eapply mkdir_walk_created; eauto.
Qed.

(** X23: apply mode creates nothing but the directories it has to ensure
    and their missing ancestors: every path whose entry differs after the
    run is one of secrets, content, assets, imports, secrets/<id>,
    content/<id>, assets/<id> for a manifest identifier, or lies above
    one of them. *)
Theorem X23_apply_creates_only_ensured_directories
    (args : list string) (s : State) (x : Path) :
  fs (snd (run cwd args s)) x <> fs s x ->
  isDryRun args = false /\
  fs (snd (run cwd args s)) x = Some Dir /\
  exists p,
    In p (ensured cwd (JS.keys (manifest_of cwd (fs s) "PROJECTS_MANIFEST.csv"))) /\
    In x (prefixes p).
Proof.
  intros Hx. destruct (isDryRun args) eqn:Hmode.
  - exfalso. apply Hx. rewrite (run_dry cwd args s Hmode).
    destruct (fst (planning cwd (fs s) s)); reflexivity.
  - split; [reflexivity|]. revert Hx. rewrite (run_apply cwd args s Hmode).
    destruct (fst (planning cwd (fs s) s)) as [plans|e]; [|simpl; congruence].
    destruct (mkdir_all _ s) as [[u|e] s'] eqn:E; intros Hx;
      assert (Hx' : fs s' x <> fs s x) by exact Hx;
      pose proof (mkdir_all_extends _ _ _ _ E) as (Hext & _);
      (split;
       [ change (fs s' x = Some Dir);
         destruct (Hext x) as [?|[_ ?]]; congruence
       | eapply mkdir_all_created; eauto ]).
Qed.
End MoreFacts.

(** ** The properties above on the sample portfolio *)

Lemma portfolio_readable : secrets_readable sample_cwd portfolio_snapshot.
Proof.
  intros id Hid. vm_compute in Hid.
  destruct Hid as [<-|[<-|[<-|[<-|[]]]]]; discriminate.
Qed.

Lemma X6_present_and_missing_partition_witness :
  isDryRun [] = true /\
  secrets_readable sample_cwd portfolio_snapshot /\
  (
  exists doc,
    observe sample_cwd [] portfolio_snapshot = (0, [Document doc], []) /\
    (forall f, In f (presentFiles doc) <->
               In f requiredFiles /\ portfolio_snapshot (path_join sample_cwd [f]) <> None) /\
    (forall f, In f (missingFiles doc) <->
               In f requiredFiles /\ portfolio_snapshot (path_join sample_cwd [f]) = None) /\
    Permutation (presentFiles doc ++ missingFiles doc) requiredFiles).
Proof.
  split; [reflexivity|]. split; [exact portfolio_readable|].
  apply (X6_present_and_missing_partition sample_cwd [] portfolio_snapshot eq_refl portfolio_readable).
Defined.

Lemma X7_totalProjects_counts_distinct_identifiers_witness :
  isDryRun [] = true /\
  secrets_readable sample_cwd portfolio_snapshot /\
  (
  exists doc,
    observe sample_cwd [] portfolio_snapshot = (0, [Document doc], []) /\
    totalProjects doc = length (plans doc) /\
    totalProjects doc
      = length (distinct []
                  (map project_id
                     (rows_at portfolio_snapshot (path_join sample_cwd ["PROJECTS_MANIFEST.csv"])))) /\
    totalProjects doc
      <= length (rows_at portfolio_snapshot (path_join sample_cwd ["PROJECTS_MANIFEST.csv"]))).
Proof.
  split; [reflexivity|]. split; [exact portfolio_readable|].
  apply (X7_totalProjects_counts_distinct_identifiers sample_cwd [] portfolio_snapshot eq_refl portfolio_readable).
Defined.

Lemma X9_env_check_comes_first_witness :
  isDryRun [] = true /\
  secrets_readable sample_cwd portfolio_snapshot /\
  (
  exists doc,
    observe sample_cwd [] portfolio_snapshot = (0, [Document doc], []) /\
    forall plan, In plan (plans doc) ->
      exists rest,
        checks plan =
          {| kind := "env";
             ok := exists_at portfolio_snapshot (envPathForProject sample_cwd (projectId plan));
             details :=
               OfEnv {| envPath := envPathForProject sample_cwd (projectId plan);
                        present := exists_at portfolio_snapshot (envPathForProject sample_cwd (projectId plan));
                        vars := match portfolio_snapshot (envPathForProject sample_cwd (projectId plan)) with
                                | Some (File c) => JS.keys (parse_env c)
                                | _ => []
                                end |} |} :: rest /\
        Forall (fun c => kind c <> "env") rest).
Proof.
  split; [reflexivity|]. split; [exact portfolio_readable|].
  apply (X9_env_check_comes_first sample_cwd [] portfolio_snapshot eq_refl portfolio_readable).
Defined.

Lemma X10_check_kinds_follow_type_witness :
  isDryRun [] = true /\
  secrets_readable sample_cwd portfolio_snapshot /\
  (
  exists doc,
    observe sample_cwd [] portfolio_snapshot = (0, [Document doc], []) /\
    forall plan, In plan (plans doc) ->
      map kind (checks plan) =
        "env" ::
        (if strict_eq (type plan) "playwright_tests" then ["tests_row"]
         else if strict_eq (type plan) "html_site" then ["html_row"]
         else if strict_eq (type plan) "webhook" then ["webhook_row"]
         else []) /\
      length (checks plan) <= 2).
Proof.
  split; [reflexivity|]. split; [exact portfolio_readable|].
  apply (X10_check_kinds_follow_type sample_cwd [] portfolio_snapshot eq_refl portfolio_readable).
Defined.

Lemma X11_row_check_details_witness :
  isDryRun [] = true /\
  secrets_readable sample_cwd portfolio_snapshot /\
  (
  exists doc,
    observe sample_cwd [] portfolio_snapshot = (0, [Document doc], []) /\
    forall plan c, In plan (plans doc) -> In c (checks plan) ->
      kind c <> "env" ->
      exists fields,
        details c = Picked fields /\
        (ok c = false -> fields = []) /\
        (forall k, In k (map fst fields) ->
           (kind c = "tests_row" /\ In k ["url"; "browsers"; "devices"]) \/
           (kind c = "html_row" /\ In k ["build_tool"; "i18n_locales"]) \/
           (kind c = "webhook_row" /\ In k ["provider"; "endpoint_url"]))).
Proof.
  split; [reflexivity|]. split; [exact portfolio_readable|].
  apply (X11_row_check_details sample_cwd [] portfolio_snapshot eq_refl portfolio_readable).
Defined.

Lemma X12_release_pipeline_action_witness :
  isDryRun [] = true /\
  secrets_readable sample_cwd portfolio_snapshot /\
  (
  exists doc,
    observe sample_cwd [] portfolio_snapshot = (0, [Document doc], []) /\
    forall plan, In plan (plans doc) ->
      (In "prepare app release pipeline" (actions plan) <->
       In (projectId plan)
          (map project_id (rows_at portfolio_snapshot (path_join sample_cwd ["APPS.csv"]))) \/
       In (projectId plan) JS.prototype_names)).
Proof.
  split; [reflexivity|]. split; [exact portfolio_readable|].
  apply (X12_release_pipeline_action sample_cwd [] portfolio_snapshot eq_refl portfolio_readable).
Defined.

Lemma X13_deploy_action_witness :
  isDryRun [] = true /\
  secrets_readable sample_cwd portfolio_snapshot /\
  (
  exists doc,
    observe sample_cwd [] portfolio_snapshot = (0, [Document doc], []) /\
    forall plan, In plan (plans doc) ->
      exists m,
        JS.own_get (manifest_of sample_cwd portfolio_snapshot "PROJECTS_MANIFEST.csv") (projectId plan)
          = Some m /\
        forall target,
          In ("configure deploy: " ++ target)%string (actions plan) <->
          JS.own_get m "type" = Some "html_site" /\
          JS.own_get m "deploy_target" = Some target /\ target <> "").
Proof.
  split; [reflexivity|]. split; [exact portfolio_readable|].
  apply (X13_deploy_action sample_cwd [] portfolio_snapshot eq_refl portfolio_readable).
Defined.

Lemma X14_unrecognised_type_witness :
  isDryRun [] = true /\
  secrets_readable sample_cwd portfolio_snapshot /\
  (
  exists doc,
    observe sample_cwd [] portfolio_snapshot = (0, [Document doc], []) /\
    forall plan, In plan (plans doc) ->
      type plan <> Some "playwright_tests" ->
      type plan <> Some "html_site" ->
      type plan <> Some "webhook" ->
      map kind (checks plan) = ["env"] /\
      (actions plan = [] \/ actions plan = ["prepare app release pipeline"])).
Proof.
  split; [reflexivity|]. split; [exact portfolio_readable|].
  apply (X14_unrecognised_type sample_cwd [] portfolio_snapshot eq_refl portfolio_readable).
Defined.

Lemma X8_dry_run_exit_status_witness :
  isDryRun [] = true /\
  (
  (fst (fst (observe sample_cwd [] portfolio_snapshot)) = 0 <-> secrets_readable sample_cwd portfolio_snapshot) /\
  (fst (fst (observe sample_cwd [] portfolio_snapshot)) <> 0 ->
   exists id,
     In id (JS.keys (manifest_of sample_cwd portfolio_snapshot "PROJECTS_MANIFEST.csv")) /\
     portfolio_snapshot (envPathForProject sample_cwd id) = Some Dir /\
     observe sample_cwd [] portfolio_snapshot = (1, [], [EISDIR (envPathForProject sample_cwd id)]))).
Proof.
  split; [reflexivity|].
  apply (X8_dry_run_exit_status sample_cwd [] portfolio_snapshot eq_refl).
Defined.

Lemma X15_apply_mode_output_witness :
  isDryRun ["--apply"] = false /\
  (
  (fst (run sample_cwd ["--apply"] (start portfolio_snapshot)) = 0 /\
   stdout (snd (run sample_cwd ["--apply"] (start portfolio_snapshot))) = stdout (start portfolio_snapshot) ++ [apply_line] /\
   stderr (snd (run sample_cwd ["--apply"] (start portfolio_snapshot))) = stderr (start portfolio_snapshot))
  \/
  (fst (run sample_cwd ["--apply"] (start portfolio_snapshot)) = 1 /\
   stdout (snd (run sample_cwd ["--apply"] (start portfolio_snapshot))) = stdout (start portfolio_snapshot) /\
   exists e, stderr (snd (run sample_cwd ["--apply"] (start portfolio_snapshot))) = stderr (start portfolio_snapshot) ++ [e])).
Proof.
  split; [reflexivity|].
  apply (X15_apply_mode_output sample_cwd ["--apply"] (start portfolio_snapshot) eq_refl).
Defined.


Lemma X19_one_plan_per_identifier_witness :
  isDryRun [] = true /\
  secrets_readable sample_cwd portfolio_snapshot /\
  (
  exists doc,
    observe sample_cwd [] portfolio_snapshot = (0, [Document doc], []) /\
    NoDup (map projectId (plans doc)) /\
    (forall id,
       In id (map projectId (plans doc)) <->
       In id (map project_id (rows_at portfolio_snapshot (path_join sample_cwd ["PROJECTS_MANIFEST.csv"])))) /\
    ((forall id, In id (map projectId (plans doc)) -> JS.is_index id = false) ->
     map projectId (plans doc)
       = distinct []
           (map project_id (rows_at portfolio_snapshot (path_join sample_cwd ["PROJECTS_MANIFEST.csv"]))))).
Proof.
  split; [reflexivity|]. split; [exact portfolio_readable|].
  apply (X19_one_plan_per_identifier sample_cwd [] portfolio_snapshot eq_refl portfolio_readable).
Defined.

Lemma X20_row_check_ok_witness :
  isDryRun [] = true /\
  secrets_readable sample_cwd portfolio_snapshot /\
  (
  exists doc,
    observe sample_cwd [] portfolio_snapshot = (0, [Document doc], []) /\
    forall plan c, In plan (plans doc) -> In c (checks plan) ->
      (kind c = "tests_row" ->
       (ok c = true <->
        In (projectId plan)
           (map project_id (rows_at portfolio_snapshot (path_join sample_cwd ["PLAYWRIGHT_TESTS.csv"]))) \/
        In (projectId plan) JS.prototype_names)) /\
      (kind c = "html_row" ->
       (ok c = true <->
        In (projectId plan)
           (map project_id (rows_at portfolio_snapshot (path_join sample_cwd ["HTML_SITES.csv"]))) \/
        In (projectId plan) JS.prototype_names)) /\
      (kind c = "webhook_row" ->
       (ok c = true <->
        In (projectId plan)
           (map project_id (rows_at portfolio_snapshot (path_join sample_cwd ["WEBHOOKS.csv"]))) \/
        In (projectId plan) JS.prototype_names))).
Proof.
  split; [reflexivity|]. split; [exact portfolio_readable|].
  apply (X20_row_check_ok sample_cwd [] portfolio_snapshot eq_refl portfolio_readable).
Defined.

Lemma X21_dry_run_reads_only_its_inputs_witness :
  isDryRun ["--dry-run"] = true /\
  (forall f, In f requiredFiles ->
     portfolio_snapshot (path_join sample_cwd [f])
       = portfolio_with_notes (path_join sample_cwd [f])) /\
  observe sample_cwd ["--dry-run"] portfolio_snapshot
    = observe sample_cwd ["--dry-run"] portfolio_with_notes.
Proof.
  assert (H1 : forall f, In f requiredFiles ->
                 portfolio_snapshot (path_join sample_cwd [f])
                   = portfolio_with_notes (path_join sample_cwd [f])).
  { intros f Hf. simpl in Hf.
    destruct Hf as [<-|[<-|[<-|[<-|[<-|[]]]]]]; reflexivity. }
  split; [reflexivity|]. split; [exact H1|].
  apply (X21_dry_run_reads_only_its_inputs sample_cwd ["--dry-run"]
           portfolio_snapshot portfolio_with_notes eq_refl H1).
  intros id Hid. vm_compute in Hid.
  destruct Hid as [<-|[<-|[<-|[<-|[]]]]]; reflexivity.
Defined.

Lemma X22_failed_planning_creates_nothing_witness :
  ~ secrets_readable sample_cwd (fs after_nested_apply) /\
  fst (run sample_cwd ["--apply"] after_nested_apply) = 1 /\
  fs (snd (run sample_cwd ["--apply"] after_nested_apply)) = fs after_nested_apply /\
  stdout (snd (run sample_cwd ["--apply"] after_nested_apply))
    = stdout after_nested_apply.
Proof.
  assert (H : ~ secrets_readable sample_cwd (fs after_nested_apply)).
  { intros H. apply (H "a"); vm_compute; auto. }
  split; [exact H|].
  apply (X22_failed_planning_creates_nothing sample_cwd ["--apply"]
           after_nested_apply H).
Defined.

Lemma X23_apply_creates_only_ensured_directories_witness :
  fs (snd (run sample_cwd ["--apply"] (start portfolio_snapshot)))
     (sample_cwd ++ ["content"; "lib"])
    <> fs (start portfolio_snapshot) (sample_cwd ++ ["content"; "lib"]) /\
  fs (snd (run sample_cwd ["--apply"] (start portfolio_snapshot)))
     (sample_cwd ++ ["content"; "lib"]) = Some Dir.
Proof.
  assert (H : fs (snd (run sample_cwd ["--apply"] (start portfolio_snapshot)))
                 (sample_cwd ++ ["content"; "lib"])
              <> fs (start portfolio_snapshot) (sample_cwd ++ ["content"; "lib"])).
  { vm_compute. discriminate. }
  split; [exact H|].
  apply (proj1 (proj2 (X23_apply_creates_only_ensured_directories sample_cwd
                          ["--apply"] (start portfolio_snapshot)
                          (sample_cwd ++ ["content"; "lib"]) H))).
Defined.
